(** * The wallet UI's background client (Session Facade)

  A shallow embedding of [apps/wallet/src/ui/app/background-client/index.ts]:
  the [BackgroundClient] class, the messages it builds, the way it projects
  typed results out of responses, its port life cycle and its handling of
  incoming messages.

  Layout: JavaScript values and exceptions; RxJS traces and the three
  operators the client uses; the world the client runs in (ports, timers,
  redux store, feature flags, query cache); the client itself, method by
  method; then the properties. *)

From Stdlib Require Import String Ascii List ZArith Bool Lia.
Import ListNotations.
Open Scope string_scope.
#[local] Set Warnings "-register-all".

(* ================================================================== *)
(** * JavaScript values *)
(* ================================================================== *)

(** Runtime values as they cross the port: JSON-like data. Numbers are the
  integral ones the client ever builds (a lock timeout). An object is the
  list of its own properties, in insertion order. *)
Inductive Value : Type :=
| VUndefined
| VNull
| VBool (b : bool)
| VNum (n : Z)
| VStr (s : string)
| VArr (items : list Value)
| VObj (fields : list (string * Value)).

(** An object literal's property table. *)
Definition Obj := list (string * Value).

(** What a JavaScript [throw] carries. [Error] is [new Error(message)];
  [TypeError] is what property access on [undefined]/[null] raises;
  [EmptyError] is RxJS's, raised by [lastValueFrom] on a stream that
  completes without a value. *)
Inductive Exn : Type :=
| Error (message : string)
| TypeError (message : string)
| EmptyError.

(** A computation that returns or throws. *)
Inductive Result (A : Type) : Type :=
| Ok (a : A)
| Throw (e : Exn).
Arguments Ok {A} a.
Arguments Throw {A} e.

Module JS.

(** [o[k]] on a property table: the first binding, [undefined] if none. *)
Fixpoint lookup (k : string) (o : Obj) : Value :=
  match o with
  | [] => VUndefined
  | (k', v) :: rest => if String.eqb k k' then v else lookup k rest
  end.

(** [k in o]. *)
Fixpoint has (k : string) (o : Obj) : bool :=
  match o with
  | [] => false
  | (k', _) :: rest => String.eqb k k' || has k rest
  end.

(** ToBoolean: [undefined], [null], [false], [0] and [''] are falsy. *)
Definition truthy (v : Value) : bool :=
  match v with
  | VUndefined | VNull => false
  | VBool b => b
  | VNum n => negb (Z.eqb n 0)
  | VStr s => negb (String.eqb s EmptyString)
  | VArr _ | VObj _ => true
  end.

(** [s === v] for a string [s]: strict equality never coerces. *)
Definition strictEqStr (s : string) (v : Value) : bool :=
  match v with
  | VStr s' => String.eqb s s'
  | _ => false
  end.

(** [s !== v]. *)
Definition strictNeStr (s : string) (v : Value) : bool :=
  negb (strictEqStr s v).

(** The [TypeError] of a property read on [undefined] or on [null]; [base]
    names which of the two. *)
Definition cannotRead (base k : string) : Exn :=
  TypeError ("Cannot read properties of " ++ base ++ " (reading '" ++ k ++ "')").

(** [v.k]: throws on [undefined] and [null], reads a property of an object,
    the length of an array or a string, and is [undefined] on the rest. *)
Definition prop (v : Value) (k : string) : Result Value :=
  match v with
  | VUndefined => Throw (cannotRead "undefined" k)
  | VNull => Throw (cannotRead "null" k)
  | VObj o => Ok (lookup k o)
  | VArr l => if String.eqb k "length" then Ok (VNum (Z.of_nat (List.length l)))
              else Ok VUndefined
  | VStr s => if String.eqb k "length" then Ok (VNum (Z.of_nat (String.length s)))
              else Ok VUndefined
  | VBool _ | VNum _ => Ok VUndefined
  end.

(** [v?.k]: [undefined] instead of a throw on [undefined] and [null]. *)
Definition optProp (v : Value) (k : string) : Value :=
  match prop v k with
  | Ok x => x
  | Throw _ => VUndefined
  end.

(** [v[0]]: the first element of an array, the first character of a
    string, property ["0"] of an object. *)
Definition first (v : Value) : Result Value :=
  match v with
  | VUndefined => Throw (cannotRead "undefined" "0")
  | VNull => Throw (cannotRead "null" "0")
  | VArr [] => Ok VUndefined
  | VArr (x :: _) => Ok x
  | VStr EmptyString => Ok VUndefined
  | VStr (String c _) => Ok (VStr (String c EmptyString))
  | VObj o => Ok (lookup "0" o)
  | VBool _ | VNum _ => Ok VUndefined
  end.

(** An optional argument left out is [undefined]. *)
Definition optStr (s : option string) : Value :=
  match s with
  | Some x => VStr x
  | None => VUndefined
  end.

Definition optVal (v : option Value) : Value :=
  match v with
  | Some x => x
  | None => VUndefined
  end.

Definition strs (l : list string) : Value := VArr (map VStr l).

(** A parameter with a default value: [f(x = d)]. *)
Definition defaultTo {A} (d : A) (x : option A) : A :=
  match x with
  | Some a => a
  | None => d
  end.

End JS.

(** Sequencing of computations that may throw. *)
Definition bindR {A B} (r : Result A) (k : A -> Result B) : Result B :=
  match r with
  | Ok a => k a
  | Throw e => Throw e
  end.

Declare Scope js_scope.
Delimit Scope js_scope with js.
Notation "'let?' x ':=' r 'in' k" := (bindR r (fun x => k))
  (at level 10, x name, r at level 100, k at level 200) : js_scope.
Open Scope js_scope.

(* ================================================================== *)
(** * Messages *)
(* ================================================================== *)

(** [Message] of [_messages]: an id and a payload object. The payload's
  [type] property is its discriminant. *)
Record Message : Type := { id : string; payload : Obj }.

Definition msgValue (m : Message) : Value :=
  VObj [("id", VStr (id m)); ("payload", VObj (payload m))].

(* ================================================================== *)
(** * RxJS: traces, [take], [map], [lastValueFrom] *)
(* ================================================================== *)

(** What an observable has done so far, as seen by one subscriber: values
  in order of emission, ended by completion, by an error, or still open
  (nothing further has happened yet). *)
Inductive Trace (A : Type) : Type :=
| Next (a : A) (rest : Trace A)
| Complete
| Fail (e : Exn)
| Open.
Arguments Next {A} a rest.
Arguments Complete {A}.
Arguments Fail {A} e.
Arguments Open {A}.

(** The state of a promise. *)
Inductive Settlement (A : Type) : Type :=
| Pending
| Resolved (a : A)
| Rejected (e : Exn).
Arguments Pending {A}.
Arguments Resolved {A} a.
Arguments Rejected {A} e.

Module Rx.

(** [take(n)]: lets [n] values through and completes with the last of
    them; [take(0)] completes at once. Whatever the source does after
    that is not observed. *)
Fixpoint take {A} (n : nat) (t : Trace A) : Trace A :=
  match n with
  | O => Complete
  | S n' =>
      match t with
      | Next a rest =>
          match n' with
          | O => Next a Complete
          | S _ => Next a (take n' rest)
          end
      | Complete => Complete
      | Fail e => Fail e
      | Open => Open
      end
  end.

(** [map(f)]: a throw inside the projection is sent down as an error and
    ends the stream. *)
Fixpoint map {A B} (f : A -> Result B) (t : Trace A) : Trace B :=
  match t with
  | Next a rest =>
      match f a with
      | Ok b => Next b (map f rest)
      | Throw e => Fail e
      end
  | Complete => Complete
  | Fail e => Fail e
  | Open => Open
  end.

Fixpoint lastFrom {A} (seen : option A) (t : Trace A) : Settlement A :=
  match t with
  | Next a rest => lastFrom (Some a) rest
  | Complete =>
      match seen with
      | Some a => Resolved a
      | None => Rejected EmptyError
      end
  | Fail e => Rejected e
  | Open => Pending
  end.

(** [lastValueFrom(obs)]: resolves with the last value once the stream
    completes, rejects on an error or on an empty completed stream. *)
Definition lastValueFrom {A} (t : Trace A) : Settlement A := lastFrom None t.

(** The values a never-ending, never-failing source has emitted so far. *)
Fixpoint ofList {A} (l : list A) : Trace A :=
  match l with
  | [] => Open
  | a :: rest => Next a (ofList rest)
  end.

End Rx.

(* ================================================================== *)
(** * The world the client runs in *)
(* ================================================================== *)

(** The functions the client hands out as callbacks, named by the method
    each one calls: [(msg) => this.handleIncomingMessage(msg)],
    [() => { this.createPortStream() }] and [() => { this.sendAppStatus() }]. *)
Inductive Callback : Type :=
| CbHandleIncomingMessage
| CbCreatePortStream
| CbSendAppStatus.

(** Modelled from the spec: the Transport Channel ([PortStream] of
    [_messaging/PortStream], not part of this development). A channel is
    connected or not, keeps what was sent on it and what it delivered, and
    has subscribers to its [onMessage] and [onDisconnect] events. *)
Record PortStream : Type := {
  channelName : string;
  connected : bool;
  posted : list Message;
  received : list Message;
  onMessage : list Callback;
  onDisconnect : list Callback
}.

(** A reference to a port stream: its position in the world's table. *)
Definition PortRef := nat.

(** The redux [dispatch] function the client is initialised with. *)
Definition AppDispatch := nat.

(** The redux actions the client creates ([_redux/slices]). *)
Inductive Action : Type :=
| setPermissions (permissions : Value)
| setTransactionRequests (txRequests : Value)
| setActiveOrigin (payload : Obj)
| changeActiveNetwork (arg : Obj).

(** A react-query key: an array, hence always truthy. *)
Definition QueryKey := list Value.

(** What [queryClient.invalidateQueries] is called with: a query key, or,
    when the lookup that chose it hit a property that every object inherits
    from [Object.prototype], the value of that property (a function, or the
    prototype itself), which is truthy and is no query key. *)
Inductive Invalidation : Type :=
| ByKey (key : QueryKey)
| ByInherited (property : string).

(** The properties a plain object inherits from [Object.prototype]. *)
Definition objectPrototypeKeys : list string :=
  ["constructor"; "__defineGetter__"; "__defineSetter__"; "hasOwnProperty";
   "__lookupGetter__"; "__lookupSetter__"; "isPrototypeOf";
   "propertyIsEnumerable"; "toString"; "valueOf"; "__proto__";
   "toLocaleString"].

(** [setInterval(callback, period)], with the time of its next firing. *)
Record Interval : Type := {
  callback : Callback;
  period : Z;
  due : Z
}.

(** The fields of a [BackgroundClient] instance. *)
Record BackgroundClient : Type := {
  _portStream : option PortRef;
  _dispatch : option AppDispatch;
  _initialized : bool
}.

(** The instance together with everything it acts on. *)
Record World : Type := {
  this : BackgroundClient;
  ports : list PortStream;
  intervals : list Interval;
  now : Z;
  visibilityState : string;
  uuids : nat;
  dispatched : list (AppDispatch * Action);
  growthbookAttributes : Value;
  growthbookFeatures : Value;
  invalidatedQueries : list Invalidation;
  uncaught : list Exn
}.

(** [new BackgroundClient()]. *)
Definition newClient : BackgroundClient :=
  {| _portStream := None; _dispatch := None; _initialized := false |}.

Definition setThis (c : BackgroundClient) (w : World) : World :=
  {| this := c; ports := ports w; intervals := intervals w; now := now w;
     visibilityState := visibilityState w; uuids := uuids w;
     dispatched := dispatched w;
     growthbookAttributes := growthbookAttributes w;
     growthbookFeatures := growthbookFeatures w;
     invalidatedQueries := invalidatedQueries w; uncaught := uncaught w |}.

Definition setPorts (ps : list PortStream) (w : World) : World :=
  {| this := this w; ports := ps; intervals := intervals w; now := now w;
     visibilityState := visibilityState w; uuids := uuids w;
     dispatched := dispatched w;
     growthbookAttributes := growthbookAttributes w;
     growthbookFeatures := growthbookFeatures w;
     invalidatedQueries := invalidatedQueries w; uncaught := uncaught w |}.

Definition setIntervals (l : list Interval) (w : World) : World :=
  {| this := this w; ports := ports w; intervals := l; now := now w;
     visibilityState := visibilityState w; uuids := uuids w;
     dispatched := dispatched w;
     growthbookAttributes := growthbookAttributes w;
     growthbookFeatures := growthbookFeatures w;
     invalidatedQueries := invalidatedQueries w; uncaught := uncaught w |}.

Definition setNow (t : Z) (w : World) : World :=
  {| this := this w; ports := ports w; intervals := intervals w; now := t;
     visibilityState := visibilityState w; uuids := uuids w;
     dispatched := dispatched w;
     growthbookAttributes := growthbookAttributes w;
     growthbookFeatures := growthbookFeatures w;
     invalidatedQueries := invalidatedQueries w; uncaught := uncaught w |}.

Definition setVisibilityState (v : string) (w : World) : World :=
  {| this := this w; ports := ports w; intervals := intervals w; now := now w;
     visibilityState := v; uuids := uuids w;
     dispatched := dispatched w;
     growthbookAttributes := growthbookAttributes w;
     growthbookFeatures := growthbookFeatures w;
     invalidatedQueries := invalidatedQueries w; uncaught := uncaught w |}.

Definition setUuids (n : nat) (w : World) : World :=
  {| this := this w; ports := ports w; intervals := intervals w; now := now w;
     visibilityState := visibilityState w; uuids := n;
     dispatched := dispatched w;
     growthbookAttributes := growthbookAttributes w;
     growthbookFeatures := growthbookFeatures w;
     invalidatedQueries := invalidatedQueries w; uncaught := uncaught w |}.

Definition setDispatched (l : list (AppDispatch * Action)) (w : World) : World :=
  {| this := this w; ports := ports w; intervals := intervals w; now := now w;
     visibilityState := visibilityState w; uuids := uuids w;
     dispatched := l;
     growthbookAttributes := growthbookAttributes w;
     growthbookFeatures := growthbookFeatures w;
     invalidatedQueries := invalidatedQueries w; uncaught := uncaught w |}.

Definition setGrowthbookAttributes (v : Value) (w : World) : World :=
  {| this := this w; ports := ports w; intervals := intervals w; now := now w;
     visibilityState := visibilityState w; uuids := uuids w;
     dispatched := dispatched w;
     growthbookAttributes := v;
     growthbookFeatures := growthbookFeatures w;
     invalidatedQueries := invalidatedQueries w; uncaught := uncaught w |}.

Definition setGrowthbookFeatures (v : Value) (w : World) : World :=
  {| this := this w; ports := ports w; intervals := intervals w; now := now w;
     visibilityState := visibilityState w; uuids := uuids w;
     dispatched := dispatched w;
     growthbookAttributes := growthbookAttributes w;
     growthbookFeatures := v;
     invalidatedQueries := invalidatedQueries w; uncaught := uncaught w |}.

Definition setInvalidatedQueries (l : list Invalidation) (w : World) : World :=
  {| this := this w; ports := ports w; intervals := intervals w; now := now w;
     visibilityState := visibilityState w; uuids := uuids w;
     dispatched := dispatched w;
     growthbookAttributes := growthbookAttributes w;
     growthbookFeatures := growthbookFeatures w;
     invalidatedQueries := l; uncaught := uncaught w |}.

Definition setUncaught (l : list Exn) (w : World) : World :=
  {| this := this w; ports := ports w; intervals := intervals w; now := now w;
     visibilityState := visibilityState w; uuids := uuids w;
     dispatched := dispatched w;
     growthbookAttributes := growthbookAttributes w;
     growthbookFeatures := growthbookFeatures w;
     invalidatedQueries := invalidatedQueries w; uncaught := l |}.

(** ** Effects: state passing with exceptions

    A method runs in a world and leaves a world behind, also when it throws:
    what it did before the [throw] stays done. *)
Definition M (A : Type) : Type := World -> World * Result A.

Definition ret {A} (a : A) : M A := fun w => (w, Ok a).

Definition throw {A} (e : Exn) : M A := fun w => (w, Throw e).

Definition bind {A B} (c : M A) (k : A -> M B) : M B :=
  fun w =>
    match c w with
    | (w', Ok a) => k a w'
    | (w', Throw e) => (w', Throw e)
    end.

Definition gets {A} (f : World -> A) : M A := fun w => (w, Ok (f w)).

Definition modify (f : World -> World) : M unit := fun w => (f w, Ok tt).

Definition liftR {A} (r : Result A) : M A := fun w => (w, r).

Declare Scope m_scope.
Delimit Scope m_scope with M.
Notation "x <- c ;; k" := (bind c (fun x => k))
  (at level 61, c at next level, right associativity) : m_scope.
Notation "c ;; k" := (bind c (fun _ => k))
  (at level 61, right associativity) : m_scope.
Open Scope m_scope.

(** What an observable has emitted, and what a promise has become, as of a
    given world. *)
Definition Observable (A : Type) : Type := World -> Trace A.
Definition Promise (A : Type) : Type := World -> Settlement A.

(** [obs.pipe(op)]. *)
Definition pipe {A B} (o : Observable A) (op : Trace A -> Trace B) : Observable B :=
  fun w => op (o w).

(** [obs.pipe(op1, op2)]. *)
Definition pipe2 {A B C} (o : Observable A) (op1 : Trace A -> Trace B)
    (op2 : Trace B -> Trace C) : Observable C :=
  fun w => op2 (op1 (o w)).

Definition lastValueFrom {A} (o : Observable A) : Promise A :=
  fun w => Rx.lastValueFrom (o w).

(** An [async] function's promise when its body threw before any [await]. *)
Definition rejected {A} (e : Exn) : Promise A := fun _ => Rejected e.

(** [p.then(f)] for a callback that does not throw. *)
Definition thenP {A B} (p : Promise A) (f : A -> B) : Promise B :=
  fun w =>
    match p w with
    | Pending => Pending
    | Resolved a => Resolved (f a)
    | Rejected e => Rejected e
    end.

Fixpoint allSettled {A} (l : list (Settlement A)) : Settlement (list A) :=
  match l with
  | [] => Resolved []
  | Rejected e :: _ => Rejected e
  | Pending :: rest =>
      match allSettled rest with
      | Rejected e => Rejected e
      | _ => Pending
      end
  | Resolved a :: rest =>
      match allSettled rest with
      | Resolved r => Resolved (a :: r)
      | Pending => Pending
      | Rejected e => Rejected e
      end
  end.

(** [Promise.all(ps)]: resolved once all are, rejected as soon as one is
    (with the rejection of the first one in the array when several are). *)
Definition promiseAll {A} (ps : list (Promise A)) : Promise (list A) :=
  fun w => allSettled (List.map (fun p => p w) ps).

(* ================================================================== *)
(** * The transport channel and message creation *)
(* ================================================================== *)

(** The failure of a send on a channel that is not connected, as
    [BackgroundClient.sendMessage] throws it. *)
Definition ChannelNotConnected : Exn :=
  Error "Failed to send message to background service. Port not connected.".

Module Port.

(** [ps[p] = f(ps[p])]; nothing happens out of range. *)
Fixpoint adjust (p : PortRef) (f : PortStream -> PortStream)
    (ps : list PortStream) : list PortStream :=
  match ps, p with
  | [], _ => []
  | s :: rest, O => f s :: rest
  | s :: rest, S p' => s :: adjust p' f rest
  end.

Definition fresh (name : string) : PortStream :=
  {| channelName := name; connected := true; posted := []; received := [];
     onMessage := []; onDisconnect := [] |}.

Definition post (msg : Message) (s : PortStream) : PortStream :=
  {| channelName := channelName s; connected := connected s;
     posted := posted s ++ [msg]; received := received s;
     onMessage := onMessage s; onDisconnect := onDisconnect s |}.

Definition receive (msg : Message) (s : PortStream) : PortStream :=
  {| channelName := channelName s; connected := connected s;
     posted := posted s; received := received s ++ [msg];
     onMessage := onMessage s; onDisconnect := onDisconnect s |}.

Definition drop (s : PortStream) : PortStream :=
  {| channelName := channelName s; connected := false;
     posted := posted s; received := received s;
     onMessage := onMessage s; onDisconnect := onDisconnect s |}.

Definition addOnMessage (cb : Callback) (s : PortStream) : PortStream :=
  {| channelName := channelName s; connected := connected s;
     posted := posted s; received := received s;
     onMessage := onMessage s ++ [cb]; onDisconnect := onDisconnect s |}.

Definition addOnDisconnect (cb : Callback) (s : PortStream) : PortStream :=
  {| channelName := channelName s; connected := connected s;
     posted := posted s; received := received s;
     onMessage := onMessage s; onDisconnect := onDisconnect s ++ [cb] |}.

(** Modelled from the spec: [PortStream.connectToBackgroundService], the
    Transport Channel's [connect(channelName) -> Channel]. The new channel
    is connected, has carried nothing and has no subscriber; the channels
    made before stay in the table as they are. *)
Definition connectToBackgroundService (name : string) : M PortRef :=
  fun w => (setPorts (ports w ++ [fresh name]) w, Ok (List.length (ports w))).

(** Modelled from the spec: the [connected] getter of [PortStream]. *)
Definition isConnected (p : PortRef) : M bool :=
  gets (fun w =>
          match nth_error (ports w) p with
          | Some s => connected s
          | None => false
          end).

(** Modelled from the spec: correlation of responses (section 4.2). The
    responses to a request are the envelopes the channel delivers after
    the send whose id is the request's, in order of arrival; the
    observable a send returns emits them, and neither completes nor fails
    by itself (a request without a response stays pending). *)
Definition inbox (p : PortRef) (requestId : string) (since : nat) (w : World)
    : list Message :=
  match nth_error (ports w) p with
  | Some s => filter (fun m => String.eqb (id m) requestId)
                     (skipn since (received s))
  | None => []
  end.

Definition responsesTo (p : PortRef) (requestId : string) (since : nat)
    : Observable Message :=
  fun w => Rx.ofList (inbox p requestId since w).

(** Modelled from the spec: [PortStream.sendMessage], the Transport
    Channel's [send(envelope)]: a send on a disconnected channel fails,
    otherwise the envelope goes out and the responses to it come back on
    the returned observable. *)
Definition sendMessage (p : PortRef) (msg : Message) : M (Observable Message) :=
  fun w =>
    match nth_error (ports w) p with
    | Some s =>
        if connected s
        then (setPorts (adjust p (post msg) (ports w)) w,
              Ok (responsesTo p (id msg) (List.length (received s))))
        else (w, Throw ChannelNotConnected)
    | None => (w, Throw ChannelNotConnected)
    end.

(** Modelled from the spec: the Transport Channel's events [onMessage] and
    [onDisconnect], as [port.onMessage.subscribe(cb)] and
    [port.onDisconnect.subscribe(cb)] add a subscriber to them. *)
Definition subscribeOnMessage (p : PortRef) (cb : Callback) : M unit :=
  modify (fun w => setPorts (adjust p (addOnMessage cb) (ports w)) w).

Definition subscribeOnDisconnect (p : PortRef) (cb : Callback) : M unit :=
  modify (fun w => setPorts (adjust p (addOnDisconnect cb) (ports w)) w).

End Port.

(** Decimal rendering of a counter. *)
Fixpoint digits (fuel n : nat) (acc : string) : string :=
  match fuel with
  | O => acc
  | S fuel' =>
      let d := String (ascii_of_nat (48 + Nat.modulo n 10)) acc in
      match Nat.div n 10 with
      | O => d
      | q => digits fuel' q d
      end
  end.

Definition decimal (n : nat) : string := digits (S n) n EmptyString.

(** Modelled from the spec: [createMessage] of [_messages] ("every outbound
    request is assigned a fresh unique id at creation"). The ids handed out
    are numbered; the world counts them. *)
Definition createMessage (payload : Obj) : M Message :=
  fun w => (setUuids (S (uuids w)) w,
            Ok {| id := "uuid-" ++ decimal (uuids w); payload := payload |}).

(** [String(v)], as a template literal interpolates a value. *)
Fixpoint toString (v : Value) : string :=
  match v with
  | VUndefined => "undefined"
  | VNull => "null"
  | VBool true => "true"
  | VBool false => "false"
  | VNum n =>
      match n with
      | Z0 => "0"
      | Zpos p => decimal (Pos.to_nat p)
      | Zneg p => "-" ++ decimal (Pos.to_nat p)
      end
  | VStr s => s
  | VArr l =>
      (fix join (l : list Value) : string :=
         match l with
         | [] => EmptyString
         | [x] => match x with VUndefined | VNull => EmptyString | _ => toString x end
         | x :: rest =>
             (match x with VUndefined | VNull => EmptyString | _ => toString x end)
               ++ "," ++ join rest
         end) l
  | VObj _ => "[object Object]"
  end.

(* ================================================================== *)
(** * What the client imports *)
(* ================================================================== *)

(** The payload type guards, query keys and encoder that [index.ts] imports
    from modules outside this development. The client is verified for every
    implementation of them: a guard is any decidable test of a payload. *)
Class Imports : Type := {
  isKeyringPayload : Obj -> string -> bool;
  isMethodPayload : Obj -> string -> bool;
  isQredoConnectPayload : Obj -> string -> bool;
  isPermissionRequests : Obj -> bool;
  isGetTransactionRequestsResponse : Obj -> bool;
  isUpdateActiveOrigin : Obj -> bool;
  isLoadedFeaturesPayload : Obj -> bool;
  isSetNetworkPayload : Obj -> bool;
  accountsQueryKey : QueryKey;
  accountSourcesQueryKey : QueryKey;
  toB64 : list Byte.byte -> string
}.

(** [UIAccessibleEntityType]: ['accounts' | 'accountSources']. *)
Inductive UIAccessibleEntityType : Type :=
| Accounts
| AccountSources.

Definition entityTypeName (t : UIAccessibleEntityType) : string :=
  match t with
  | Accounts => "accounts"
  | AccountSources => "accountSources"
  end.

(** [MethodPayload<'createAccounts'>['args']]: a union of object types, each
    with a string [type] and fields of its own. *)
Record CreateAccountsArgs : Type := {
  accountsType : string;
  accountsParams : Obj
}.

Definition createAccountsArgsValue (inputs : CreateAccountsArgs) : Value :=
  VObj (("type", VStr (accountsType inputs)) :: accountsParams inputs).

(** [{ password: string; entropy?: string }]. *)
Record MnemonicInputs : Type := {
  mnemonicPassword : string;
  mnemonicEntropy : option string
}.

Definition mnemonicInputsValue (inputs : MnemonicInputs) : Value :=
  VObj (("password", VStr (mnemonicPassword inputs))
          :: match mnemonicEntropy inputs with
             | Some e => [("entropy", VStr e)]
             | None => []
             end).

(** The duration in milliseconds that the UI sends status updates
    (active/inactive) to the background service. *)
Definition APP_STATUS_UPDATE_INTERVAL : Z := 20 * 1000.

(* ================================================================== *)
(** * [class BackgroundClient] *)
(* ================================================================== *)

Section Client.

Context {imports : Imports}.

(** [entitiesToClientQueryKeys[k]]: the object literal has the two keys of
    [UIAccessibleEntityType] as its own; as a plain object it also answers
    to the properties of [Object.prototype]; any other key is [undefined]
    ([None]). The key is converted to a string first. *)
Definition entitiesToClientQueryKeys (k : Value) : option Invalidation :=
  let key := toString k in
  if String.eqb key "accounts" then Some (ByKey accountsQueryKey)
  else if String.eqb key "accountSources" then Some (ByKey accountSourcesQueryKey)
  else if existsb (String.eqb key) objectPrototypeKeys then Some (ByInherited key)
  else None.

Definition sendMessage (msg : Message) : M (Observable Message) :=
  p <- gets (fun w => _portStream (this w)) ;;
  match p with
  | Some port =>
      c <- Port.isConnected port ;;
      if c then Port.sendMessage port msg
      else throw ChannelNotConnected
  | None => throw ChannelNotConnected
  end.

Definition sendPermissionResponse (id : string) (accounts : list string)
    (allowed : bool) (responseDate : string) : M unit :=
  msg <- createMessage
           [("id", VStr id);
            ("type", VStr "permission-response");
            ("accounts", JS.strs accounts);
            ("allowed", VBool allowed);
            ("responseDate", VStr responseDate)] ;;
  _ <- sendMessage msg ;;
  ret tt.

Definition sendGetPermissionRequests : M (Promise Message) :=
  msg <- createMessage [("type", VStr "get-permission-requests")] ;;
  obs <- sendMessage msg ;;
  ret (lastValueFrom (pipe obs (Rx.take 1))).

Definition sendTransactionRequestResponse (txID : string) (approved : bool)
    (txResult : option Value) (txResultError : option string)
    (txSigned : option Value) : M unit :=
  msg <- createMessage
           [("type", VStr "transaction-request-response");
            ("approved", VBool approved);
            ("txID", VStr txID);
            ("txResult", JS.optVal txResult);
            ("txResultError", JS.optStr txResultError);
            ("txSigned", JS.optVal txSigned)] ;;
  _ <- sendMessage msg ;;
  ret tt.

Definition sendGetTransactionRequests : M (Promise Message) :=
  msg <- createMessage [("type", VStr "get-transaction-requests")] ;;
  obs <- sendMessage msg ;;
  ret (lastValueFrom (pipe obs (Rx.take 1))).

(** An [async] method: a throw in its body rejects the promise it returns,
    and the promise resolves with [undefined]. *)
Definition disconnectApp (origin : string) (specificAccounts : option (list string))
    : M (Promise Value) :=
  fun w =>
    match (msg <- createMessage
                    [("type", VStr "disconnect-app");
                     ("origin", VStr origin);
                     ("specificAccounts",
                      match specificAccounts with
                      | Some l => JS.strs l
                      | None => VUndefined
                      end)] ;;
           obs <- sendMessage msg ;;
           ret (lastValueFrom (pipe obs (Rx.take 1)))) w with
    | (w', Ok p) => (w', Ok (thenP p (fun _ => VUndefined)))
    | (w', Throw e) => (w', Ok (rejected e))
    end.

Definition createVault (password : string) (importedEntropy : option string)
    : M (Promise Message) :=
  msg <- createMessage
           [("type", VStr "keyring");
            ("method", VStr "create");
            ("args", VObj [("password", VStr password);
                           ("importedEntropy", JS.optStr importedEntropy)]);
            ("return", VUndefined)] ;;
  obs <- sendMessage msg ;;
  ret (lastValueFrom (pipe obs (Rx.take 1))).

Definition unlockWallet (password : string) : M (Promise Message) :=
  msg <- createMessage
           [("type", VStr "keyring");
            ("method", VStr "unlock");
            ("args", VObj [("password", VStr password)]);
            ("return", VUndefined)] ;;
  obs <- sendMessage msg ;;
  ret (lastValueFrom (pipe obs (Rx.take 1))).

Definition lockWallet : M (Promise Message) :=
  msg <- createMessage
           [("type", VStr "keyring");
            ("method", VStr "lock")] ;;
  obs <- sendMessage msg ;;
  ret (lastValueFrom (pipe obs (Rx.take 1))).

Definition clearWallet : M (Promise Message) :=
  msg <- createMessage
           [("type", VStr "method-payload");
            ("method", VStr "clearWallet");
            ("args", VObj [])] ;;
  obs <- sendMessage msg ;;
  ret (lastValueFrom (pipe obs (Rx.take 1))).

Definition getEntropy (password : option string) : M (Promise Value) :=
  msg <- createMessage
           [("type", VStr "keyring");
            ("method", VStr "getEntropy");
            ("args", JS.optStr password);
            ("return", VUndefined)] ;;
  obs <- sendMessage msg ;;
  ret (lastValueFrom
         (pipe2 obs
            (Rx.take 1)
            (Rx.map (fun m =>
               let payload := payload m in
               if isKeyringPayload payload "getEntropy"
                  && JS.truthy (JS.lookup "return" payload)
               then Ok (JS.lookup "return" payload)
               else Throw (Error "Mnemonic not found"))))).

Definition setKeyringLockTimeout (timeout : Z) : M (Promise Message) :=
  msg <- createMessage
           [("type", VStr "keyring");
            ("method", VStr "setLockTimeout");
            ("args", VObj [("timeout", VNum timeout)])] ;;
  obs <- sendMessage msg ;;
  ret (lastValueFrom (pipe obs (Rx.take 1))).

Definition signData (addressOrID : string) (data : list Byte.byte)
    : M (Promise Value) :=
  msg <- createMessage
           [("type", VStr "method-payload");
            ("method", VStr "signData");
            ("args", VObj [("data", VStr (toB64 data));
                           ("id", VStr addressOrID)])] ;;
  obs <- sendMessage msg ;;
  ret (lastValueFrom
         (pipe2 obs
            (Rx.take 1)
            (Rx.map (fun m =>
               let payload := payload m in
               if isMethodPayload payload "signDataResponse"
               then JS.prop (JS.lookup "args" payload) "signature"
               else Throw (Error "Error unknown response for signData message"))))).

Definition setActiveNetworkEnv (network : Value) : M (Promise Message) :=
  msg <- createMessage
           [("type", VStr "set-network");
            ("network", network)] ;;
  obs <- sendMessage msg ;;
  ret (lastValueFrom (pipe obs (Rx.take 1))).

Definition selectAccount (accountID : string) : M (Promise Message) :=
  msg <- createMessage
           [("type", VStr "method-payload");
            ("method", VStr "switchAccount");
            ("args", VObj [("accountID", VStr accountID)])] ;;
  obs <- sendMessage msg ;;
  ret (lastValueFrom (pipe obs (Rx.take 1))).

Definition deriveNextAccount : M (Promise Value) :=
  msg <- createMessage
           [("type", VStr "keyring");
            ("method", VStr "deriveNextAccount")] ;;
  obs <- sendMessage msg ;;
  ret (lastValueFrom
         (pipe2 obs
            (Rx.take 1)
            (Rx.map (fun m =>
               let payload := payload m in
               if isKeyringPayload payload "deriveNextAccount"
                  && JS.truthy (JS.lookup "return" payload)
               then JS.prop (JS.lookup "return" payload) "accountAddress"
               else Throw (Error "Error unknown response for derive account message"))))).

Definition verifyPassword (password : string) (legacyAccounts : option bool)
    : M (Promise Message) :=
  let legacyAccounts := JS.defaultTo false legacyAccounts in
  msg <- (if legacyAccounts
          then createMessage
                 [("type", VStr "keyring");
                  ("method", VStr "verifyPassword");
                  ("args", VObj [("password", VStr password)])]
          else createMessage
                 [("type", VStr "method-payload");
                  ("method", VStr "verifyPassword");
                  ("args", VObj [("password", VStr password)])]) ;;
  obs <- sendMessage msg ;;
  ret (lastValueFrom (pipe obs (Rx.take 1))).

Definition exportAccount (password accountAddress : string) : M (Promise Value) :=
  msg <- createMessage
           [("type", VStr "keyring");
            ("method", VStr "exportAccount");
            ("args", VObj [("password", VStr password);
                           ("accountAddress", VStr accountAddress)])] ;;
  obs <- sendMessage msg ;;
  ret (lastValueFrom
         (pipe2 obs
            (Rx.take 1)
            (Rx.map (fun m =>
               let payload := payload m in
               if isKeyringPayload payload "exportAccount"
                  && JS.truthy (JS.lookup "return" payload)
               then JS.prop (JS.lookup "return" payload) "keyPair"
               else Throw (Error "Error unknown response for export account message"))))).

Definition importPrivateKey (password : string) (keyPair : Value)
    : M (Promise Message) :=
  msg <- createMessage
           [("type", VStr "keyring");
            ("method", VStr "importPrivateKey");
            ("args", VObj [("password", VStr password);
                           ("keyPair", keyPair)])] ;;
  obs <- sendMessage msg ;;
  ret (lastValueFrom (pipe obs (Rx.take 1))).

Definition fetchPendingQredoConnectRequest (requestID : string) : M (Promise Value) :=
  msg <- createMessage
           [("type", VStr "qredo-connect");
            ("method", VStr "getPendingRequest");
            ("args", VObj [("requestID", VStr requestID)])] ;;
  obs <- sendMessage msg ;;
  ret (lastValueFrom
         (pipe2 obs
            (Rx.take 1)
            (Rx.map (fun m =>
               let payload := payload m in
               if isQredoConnectPayload payload "getPendingRequestResponse"
               then JS.prop (JS.lookup "args" payload) "request"
               else Throw (Error
                      "Error unknown response for fetch pending qredo requests message"))))).

Definition getQredoConnectionInfo (qredoID : string)
    (refreshAccessToken : option bool) : M (Promise Value) :=
  let refreshAccessToken := JS.defaultTo false refreshAccessToken in
  msg <- createMessage
           [("type", VStr "qredo-connect");
            ("method", VStr "getQredoInfo");
            ("args", VObj [("qredoID", VStr qredoID);
                           ("refreshAccessToken", VBool refreshAccessToken)])] ;;
  obs <- sendMessage msg ;;
  ret (lastValueFrom
         (pipe2 obs
            (Rx.take 1)
            (Rx.map (fun m =>
               let payload := payload m in
               if isQredoConnectPayload payload "getQredoInfoResponse"
               then Ok (JS.lookup "args" payload)
               else Throw (Error "Error unknown response for get qredo info message"))))).

Definition acceptQredoConnection (args : Value) : M (Promise Value) :=
  msg <- createMessage
           [("type", VStr "qredo-connect");
            ("method", VStr "acceptQredoConnection");
            ("args", args)] ;;
  obs <- sendMessage msg ;;
  ret (lastValueFrom
         (pipe2 obs
            (Rx.take 1)
            (Rx.map (fun m =>
               let payload := payload m in
               if isQredoConnectPayload payload "acceptQredoConnectionResponse"
               then JS.prop (JS.lookup "args" payload) "accounts"
               else Throw (Error "Error unknown response for accept qredo connection"))))).

Definition rejectQredoConnection (args : Value) : M (Promise Message) :=
  msg <- createMessage
           [("type", VStr "qredo-connect");
            ("method", VStr "rejectQredoConnection");
            ("args", args)] ;;
  obs <- sendMessage msg ;;
  ret (lastValueFrom (pipe obs (Rx.take 1))).

Definition getStoredEntities (type : UIAccessibleEntityType) : M (Promise Value) :=
  msg <- createMessage
           [("method", VStr "getStoredEntities");
            ("type", VStr "method-payload");
            ("args", VObj [("type", VStr (entityTypeName type))])] ;;
  obs <- sendMessage msg ;;
  ret (lastValueFrom
         (pipe2 obs
            (Rx.take 1)
            (Rx.map (fun m =>
               let payload := payload m in
               if negb (isMethodPayload payload "storedEntitiesResponse")
               then Throw (Error "Unknown response")
               else
                 let? responseType := JS.prop (JS.lookup "args" payload) "type" in
                 if JS.strictNeStr (entityTypeName type) responseType
                 then Throw (Error ("unexpected entity type response "
                                      ++ toString responseType))
                 else JS.prop (JS.lookup "args" payload) "entities")))).

Definition createMnemonicAccountSource (inputs : MnemonicInputs)
    : M (Promise Value) :=
  msg <- createMessage
           [("method", VStr "createAccountSource");
            ("type", VStr "method-payload");
            ("args", VObj [("type", VStr "mnemonic");
                           ("params", mnemonicInputsValue inputs)])] ;;
  obs <- sendMessage msg ;;
  ret (lastValueFrom
         (pipe2 obs
            (Rx.take 1)
            (Rx.map (fun m =>
               let payload := payload m in
               if negb (isMethodPayload payload "accountSourceCreationResponse")
               then Throw (Error "Unknown response")
               else
                 let? accountSource := JS.prop (JS.lookup "args" payload) "accountSource" in
                 let? sourceType := JS.prop accountSource "type" in
                 if JS.strictNeStr "mnemonic" sourceType
                 then Throw (Error ("Unexpected account source type response "
                                      ++ toString sourceType))
                 else Ok accountSource)))).

Definition createAccounts (inputs : CreateAccountsArgs) : M (Promise Value) :=
  msg <- createMessage
           [("method", VStr "createAccounts");
            ("type", VStr "method-payload");
            ("args", createAccountsArgsValue inputs)] ;;
  obs <- sendMessage msg ;;
  ret (lastValueFrom
         (pipe2 obs
            (Rx.take 1)
            (Rx.map (fun m =>
               let payload := payload m in
               if negb (isMethodPayload payload "accountsCreatedResponse")
               then Throw (Error "Unknown response")
               else
                 let? accounts := JS.prop (JS.lookup "args" payload) "accounts" in
                 let? account0 := JS.first accounts in
                 if JS.strictNeStr (accountsType inputs) (JS.optProp account0 "type")
                 then Throw (Error ("Unexpected accounts type response "
                                      ++ toString (JS.optProp account0 "type")))
                 else Ok accounts)))).

Definition deleteAccountSourceByType (inputs : Value) : M (Promise Value) :=
  msg <- createMessage
           [("method", VStr "deleteAccountSourceByType");
            ("type", VStr "method-payload");
            ("args", inputs)] ;;
  obs <- sendMessage msg ;;
  ret (lastValueFrom
         (pipe2 obs
            (Rx.take 1)
            (Rx.map (fun m =>
               let payload := payload m in
               if negb (isMethodPayload payload "deleteAccountSourceByTypeResponse")
               then Throw (Error "Unknown response")
               else JS.prop (JS.lookup "args" payload) "success")))).

Definition unlockAccountSourceOrAccount (inputs : Value) : M (Promise Message) :=
  msg <- createMessage
           [("type", VStr "method-payload");
            ("method", VStr "unlockAccountSourceOrAccount");
            ("args", inputs)] ;;
  obs <- sendMessage msg ;;
  ret (lastValueFrom (pipe obs (Rx.take 1))).

Definition lockAccountSourceOrAccount (id : string) : M (Promise Message) :=
  msg <- createMessage
           [("type", VStr "method-payload");
            ("method", VStr "lockAccountSourceOrAccount");
            ("args", VObj [("id", VStr id)])] ;;
  obs <- sendMessage msg ;;
  ret (lastValueFrom (pipe obs (Rx.take 1))).

Definition setAccountNickname (id : string) (nickname : Value) : M (Promise Message) :=
  msg <- createMessage
           [("type", VStr "method-payload");
            ("method", VStr "setAccountNickname");
            ("args", VObj [("id", VStr id); ("nickname", nickname)])] ;;
  obs <- sendMessage msg ;;
  ret (lastValueFrom (pipe obs (Rx.take 1))).

Definition getStorageMigrationStatus : M (Promise Value) :=
  msg <- createMessage
           [("method", VStr "getStorageMigrationStatus");
            ("type", VStr "method-payload");
            ("args", VNull)] ;;
  obs <- sendMessage msg ;;
  ret (lastValueFrom
         (pipe2 obs
            (Rx.take 1)
            (Rx.map (fun m =>
               let payload := payload m in
               if negb (isMethodPayload payload "storageMigrationStatus")
               then Throw (Error "Unknown response")
               else JS.prop (JS.lookup "args" payload) "status")))).

Definition doStorageMigration (inputs : Value) : M (Promise Message) :=
  msg <- createMessage
           [("type", VStr "method-payload");
            ("method", VStr "doStorageMigration");
            ("args", inputs)] ;;
  obs <- sendMessage msg ;;
  ret (lastValueFrom (pipe obs (Rx.take 1))).

(** Wallet wasn't storing the public key of ledger accounts, but we need it
    to send it to the dapps. *)
Definition storeLedgerAccountsPublicKeys (args : Value) : M (Promise Message) :=
  msg <- createMessage
           [("type", VStr "method-payload");
            ("method", VStr "storeLedgerAccountsPublicKeys");
            ("args", args)] ;;
  obs <- sendMessage msg ;;
  ret (lastValueFrom (pipe obs (Rx.take 1))).

Definition getAccountSourceEntropy (accountSourceID : string) : M (Promise Value) :=
  msg <- createMessage
           [("type", VStr "method-payload");
            ("method", VStr "getAccountSourceEntropy");
            ("args", VObj [("accountSourceID", VStr accountSourceID)])] ;;
  obs <- sendMessage msg ;;
  ret (lastValueFrom
         (pipe2 obs
            (Rx.take 1)
            (Rx.map (fun m =>
               let payload := payload m in
               if isMethodPayload payload "getAccountSourceEntropyResponse"
               then Ok (JS.lookup "args" payload)
               else Throw (Error "Unexpected response type"))))).

(** [document.visibilityState === 'visible'], sent without keeping the
    observable the send returns. *)
Definition sendAppStatus : M unit :=
  active <- gets (fun w => String.eqb (visibilityState w) "visible") ;;
  msg <- createMessage
           [("type", VStr "keyring");
            ("method", VStr "appStatusUpdate");
            ("args", VObj [("active", VBool active)])] ;;
  _ <- sendMessage msg ;;
  ret tt.

(** [setInterval(cb, period)]: first firing one period from now. *)
Definition setInterval (cb : Callback) (period : Z) : M unit :=
  modify (fun w =>
            setIntervals
              (intervals w ++ [{| callback := cb; period := period;
                                  due := now w + period |}]) w).

Definition setupAppStatusUpdateInterval : M unit :=
  setInterval CbSendAppStatus APP_STATUS_UPDATE_INTERVAL.

Definition loadFeatures : M (Promise Message) :=
  msg <- createMessage [("type", VStr "get-features")] ;;
  obs <- sendMessage msg ;;
  ret (lastValueFrom (pipe obs (Rx.take 1))).

Definition getNetwork : M (Promise Message) :=
  msg <- createMessage [("type", VStr "get-network")] ;;
  obs <- sendMessage msg ;;
  ret (lastValueFrom (pipe obs (Rx.take 1))).

(** [this._dispatch(action)]. *)
Definition dispatch (d : AppDispatch) (action : Action) : M unit :=
  modify (fun w => setDispatched (dispatched w ++ [(d, action)]) w).

Definition handleIncomingMessage (msg : Message) : M unit :=
  c <- gets this ;;
  match _initialized c, _dispatch c with
  | true, Some d =>
      let payload := payload msg in
      action <-
        (if isPermissionRequests payload
         then ret (Some (setPermissions (JS.lookup "permissions" payload)))
         else if isGetTransactionRequestsResponse payload
         then ret (Some (setTransactionRequests (JS.lookup "txRequests" payload)))
         else if isUpdateActiveOrigin payload
         then ret (Some (setActiveOrigin payload))
         else if isLoadedFeaturesPayload payload
         then
           modify (setGrowthbookAttributes (JS.lookup "attributes" payload)) ;;
           modify (setGrowthbookFeatures (JS.lookup "features" payload)) ;;
           ret None
         else if isSetNetworkPayload payload
         then ret (Some (changeActiveNetwork
                           [("network", JS.lookup "network" payload)]))
         else if isMethodPayload payload "entitiesUpdated"
         then
           entityType <- liftR (JS.prop (JS.lookup "args" payload) "type") ;;
           match entitiesToClientQueryKeys entityType with
           | Some entitiesQueryKey =>
               modify (fun w =>
                         setInvalidatedQueries
                           (invalidatedQueries w ++ [entitiesQueryKey]) w) ;;
               ret None
           | None => ret None
           end
         else ret None) ;;
      match action with
      | Some a => dispatch d a
      | None => ret tt
      end
  | _, _ =>
      throw (Error "BackgroundClient is not initialized to handle incoming messages")
  end.

Definition setPortStream (p : PortRef) : M unit :=
  modify (fun w =>
            setThis {| _portStream := Some p;
                       _dispatch := _dispatch (this w);
                       _initialized := _initialized (this w) |} w).

Definition createPortStream : M unit :=
  p <- Port.connectToBackgroundService "sui_ui<->background" ;;
  setPortStream p ;;
  Port.subscribeOnDisconnect p CbCreatePortStream ;;
  Port.subscribeOnMessage p CbHandleIncomingMessage.

Definition init (d : AppDispatch) : M (Promise Value) :=
  c <- gets this ;;
  if _initialized c
  then throw (Error "[BackgroundClient] already initialized")
  else
    modify (fun w => setThis {| _portStream := _portStream (this w);
                                _dispatch := _dispatch (this w);
                                _initialized := true |} w) ;;
    modify (fun w => setThis {| _portStream := _portStream (this w);
                                _dispatch := Some d;
                                _initialized := _initialized (this w) |} w) ;;
    createPortStream ;;
    sendAppStatus ;;
    setupAppStatusUpdateInterval ;;
    p1 <- sendGetPermissionRequests ;;
    p2 <- sendGetTransactionRequests ;;
    p3 <- loadFeatures ;;
    p4 <- getNetwork ;;
    ret (thenP (promiseAll [p1; p2; p3; p4]) (fun _ => VUndefined)).

(* ================================================================== *)
(** * The public methods, as one type *)
(* ================================================================== *)

(** A call of a public request method with its arguments. *)
Inductive Operation : Type :=
| SendPermissionResponse (id : string) (accounts : list string)
    (allowed : bool) (responseDate : string)
| SendGetPermissionRequests
| SendTransactionRequestResponse (txID : string) (approved : bool)
    (txResult : option Value) (txResultError : option string)
    (txSigned : option Value)
| SendGetTransactionRequests
| DisconnectApp (origin : string) (specificAccounts : option (list string))
| CreateVault (password : string) (importedEntropy : option string)
| UnlockWallet (password : string)
| LockWallet
| ClearWallet
| GetEntropy (password : option string)
| SetKeyringLockTimeout (timeout : Z)
| SignData (addressOrID : string) (data : list Byte.byte)
| SetActiveNetworkEnv (network : Value)
| SelectAccount (accountID : string)
| DeriveNextAccount
| VerifyPassword (password : string) (legacyAccounts : option bool)
| ExportAccount (password accountAddress : string)
| ImportPrivateKey (password : string) (keyPair : Value)
| FetchPendingQredoConnectRequest (requestID : string)
| GetQredoConnectionInfo (qredoID : string) (refreshAccessToken : option bool)
| AcceptQredoConnection (args : Value)
| RejectQredoConnection (args : Value)
| GetStoredEntities (type : UIAccessibleEntityType)
| CreateMnemonicAccountSource (inputs : MnemonicInputs)
| CreateAccounts (inputs : CreateAccountsArgs)
| DeleteAccountSourceByType (inputs : Value)
| UnlockAccountSourceOrAccount (inputs : Value)
| LockAccountSourceOrAccount (id : string)
| SetAccountNickname (id : string) (nickname : Value)
| GetStorageMigrationStatus
| DoStorageMigration (inputs : Value)
| StoreLedgerAccountsPublicKeys (args : Value)
| GetAccountSourceEntropy (accountSourceID : string).

(** What a call hands back to its caller: nothing, or a promise. *)
Inductive Returned : Type :=
| Void
| Awaitable (p : Promise Value).

Definition void (c : M unit) : M Returned :=
  _ <- c ;; ret Void.

Definition awaitable (c : M (Promise Value)) : M Returned :=
  p <- c ;; ret (Awaitable p).

(** A promise of the response envelope itself. *)
Definition envelope (c : M (Promise Message)) : M Returned :=
  p <- c ;; ret (Awaitable (thenP p msgValue)).

Definition call (op : Operation) : M Returned :=
  match op with
  | SendPermissionResponse id accounts allowed responseDate =>
      void (sendPermissionResponse id accounts allowed responseDate)
  | SendGetPermissionRequests => envelope sendGetPermissionRequests
  | SendTransactionRequestResponse txID approved txResult txResultError txSigned =>
      void (sendTransactionRequestResponse txID approved txResult txResultError txSigned)
  | SendGetTransactionRequests => envelope sendGetTransactionRequests
  | DisconnectApp origin specificAccounts =>
      awaitable (disconnectApp origin specificAccounts)
  | CreateVault password importedEntropy => envelope (createVault password importedEntropy)
  | UnlockWallet password => envelope (unlockWallet password)
  | LockWallet => envelope lockWallet
  | ClearWallet => envelope clearWallet
  | GetEntropy password => awaitable (getEntropy password)
  | SetKeyringLockTimeout timeout => envelope (setKeyringLockTimeout timeout)
  | SignData addressOrID data => awaitable (signData addressOrID data)
  | SetActiveNetworkEnv network => envelope (setActiveNetworkEnv network)
  | SelectAccount accountID => envelope (selectAccount accountID)
  | DeriveNextAccount => awaitable deriveNextAccount
  | VerifyPassword password legacyAccounts =>
      envelope (verifyPassword password legacyAccounts)
  | ExportAccount password accountAddress =>
      awaitable (exportAccount password accountAddress)
  | ImportPrivateKey password keyPair => envelope (importPrivateKey password keyPair)
  | FetchPendingQredoConnectRequest requestID =>
      awaitable (fetchPendingQredoConnectRequest requestID)
  | GetQredoConnectionInfo qredoID refreshAccessToken =>
      awaitable (getQredoConnectionInfo qredoID refreshAccessToken)
  | AcceptQredoConnection args => awaitable (acceptQredoConnection args)
  | RejectQredoConnection args => envelope (rejectQredoConnection args)
  | GetStoredEntities type => awaitable (getStoredEntities type)
  | CreateMnemonicAccountSource inputs => awaitable (createMnemonicAccountSource inputs)
  | CreateAccounts inputs => awaitable (createAccounts inputs)
  | DeleteAccountSourceByType inputs => awaitable (deleteAccountSourceByType inputs)
  | UnlockAccountSourceOrAccount inputs => envelope (unlockAccountSourceOrAccount inputs)
  | LockAccountSourceOrAccount id => envelope (lockAccountSourceOrAccount id)
  | SetAccountNickname id nickname => envelope (setAccountNickname id nickname)
  | GetStorageMigrationStatus => awaitable getStorageMigrationStatus
  | DoStorageMigration inputs => envelope (doStorageMigration inputs)
  | StoreLedgerAccountsPublicKeys args => envelope (storeLedgerAccountsPublicKeys args)
  | GetAccountSourceEntropy accountSourceID =>
      awaitable (getAccountSourceEntropy accountSourceID)
  end.

(* ================================================================== *)
(** * The host: how callbacks get run *)
(* ================================================================== *)

Definition runCallback (cb : Callback) (arg : option Message) : M unit :=
  match cb with
  | CbHandleIncomingMessage =>
      match arg with
      | Some msg => handleIncomingMessage msg
      | None => ret tt
      end
  | CbCreatePortStream => createPortStream
  | CbSendAppStatus => sendAppStatus
  end.

(** An exception that escapes a callback is reported to the host and goes
    no further. *)
Definition reportUncaught {A} (c : M A) (w : World) : World :=
  match c w with
  | (w', Ok _) => w'
  | (w', Throw e) => setUncaught (uncaught w' ++ [e]) w'
  end.

(** The subscribers of an event run in the order they subscribed. *)
Definition fire (cbs : list Callback) (arg : option Message) (w : World) : World :=
  fold_left (fun w cb => reportUncaught (runCallback cb arg) w) cbs w.

Definition reschedule (t : Z) (i : Interval) : Interval :=
  if (due i <=? t)%Z
  then {| callback := callback i; period := period i; due := due i + period i |}
  else i.

(** What can happen to a client: the background service posts a message on
    a port, a port disconnects, a millisecond passes, the document is shown
    or hidden, the UI calls [init] or a request method (what the call
    returns or throws goes to the caller). *)
Inductive Event : Type :=
| PortMessage (p : PortRef) (msg : Message)
| PortDisconnect (p : PortRef)
| Tick
| VisibilityChange (state : string)
| Init (d : AppDispatch)
| Call (op : Operation).

Definition step (ev : Event) (w : World) : World :=
  match ev with
  | PortMessage p msg =>
      match nth_error (ports w) p with
      | Some s =>
          if connected s
          then fire (onMessage s) (Some msg)
                 (setPorts (Port.adjust p (Port.receive msg) (ports w)) w)
          else w
      | None => w
      end
  | PortDisconnect p =>
      match nth_error (ports w) p with
      | Some s =>
          if connected s
          then fire (onDisconnect s) None
                 (setPorts (Port.adjust p Port.drop (ports w)) w)
          else w
      | None => w
      end
  | Tick =>
      let t := (now w + 1)%Z in
      let ringing := filter (fun i => (due i <=? t)%Z) (intervals w) in
      fire (List.map callback ringing) None
        (setIntervals (List.map (reschedule t) (intervals w)) (setNow t w))
  | VisibilityChange state => setVisibilityState state w
  | Init d => fst (init d w)
  | Call op => fst (call op w)
  end.

Definition run (evs : list Event) (w : World) : World :=
  fold_left (fun w ev => step ev w) evs w.

(** A world in which a client has just been constructed: no port, no
    interval, nothing dispatched yet. *)
Definition blank (visibility : string) (t : Z) : World :=
  {| this := newClient; ports := []; intervals := []; now := t;
     visibilityState := visibility; uuids := 0; dispatched := [];
     growthbookAttributes := VUndefined; growthbookFeatures := VUndefined;
     invalidatedQueries := []; uncaught := [] |}.

End Client.

(* ================================================================== *)
(** * Vocabulary of the properties *)
(* ================================================================== *)

(** The port stream the client holds, if it holds one. *)
Definition currentPort (w : World) : option (PortRef * PortStream) :=
  match _portStream (this w) with
  | Some p =>
      match nth_error (ports w) p with
      | Some s => Some (p, s)
      | None => None
      end
  | None => None
  end.

(** [this._portStream?.connected]. *)
Definition portConnected (w : World) : bool :=
  match currentPort w with
  | Some (_, s) => connected s
  | None => false
  end.

(** The world after [msg] went out on port [p]. *)
Definition sent (p : PortRef) (msg : Message) (w : World) : World :=
  setPorts (Port.adjust p (Port.post msg) (ports w)) w.

(** The id [createMessage] gives out next. *)
Definition nextId (w : World) : string := "uuid-" ++ decimal (uuids w).

(** What the first of the responses makes of a promise that takes one
    response and projects it. *)
Definition settledBy {A B} (project : A -> Result B) (responses : list A)
    : Settlement B :=
  match responses with
  | [] => Pending
  | m :: _ =>
      match project m with
      | Ok b => Resolved b
      | Throw e => Rejected e
      end
  end.

(** A call fails with [e]: it throws [e], or the promise it returns is
    rejected with [e]. *)
Definition failsWith (r : Result Returned) (e : Exn) : Prop :=
  r = Throw e \/ exists P, r = Ok (Awaitable P) /\ forall w, P w = Rejected e.

(** The methods that wait for a response; the other two send and return. *)
Definition awaitsResponse (op : Operation) : bool :=
  match op with
  | SendPermissionResponse _ _ _ _ => false
  | SendTransactionRequestResponse _ _ _ _ _ => false
  | _ => true
  end.

(** The failure [getEntropy] signals. *)
Definition MnemonicNotFound : Exn := Error "Mnemonic not found".

(** The failures by which a method says that the response is not of the
    shape it expects: the messages of the [Error]s thrown on a payload
    that fails the method's type guard. *)
Definition UnexpectedResponseShape (e : Exn) : Prop :=
  In e [Error "Error unknown response for signData message";
        Error "Error unknown response for derive account message";
        Error "Error unknown response for export account message";
        Error "Error unknown response for fetch pending qredo requests message";
        Error "Error unknown response for get qredo info message";
        Error "Error unknown response for accept qredo connection";
        Error "Unknown response";
        Error "Unexpected response type"].

(** The port stream [createPortStream] leaves behind: connected, nothing
    sent or delivered yet, both handlers subscribed. *)
Definition subscribedPort : PortStream :=
  {| channelName := "sui_ui<->background"; connected := true;
     posted := []; received := [];
     onMessage := [CbHandleIncomingMessage];
     onDisconnect := [CbCreatePortStream] |}.

(** The status message of a UI that is, or is not, active. *)
Definition appStatusUpdate (id : string) (active : bool) : Message :=
  {| id := id;
     payload := [("type", VStr "keyring");
                 ("method", VStr "appStatusUpdate");
                 ("args", VObj [("active", VBool active)])] |}.

(** [document.visibilityState === 'visible']. *)
Definition visible (w : World) : bool := String.eqb (visibilityState w) "visible".

(** The interval [setupAppStatusUpdateInterval] registers. *)
Definition statusInterval (due : Z) : Interval :=
  {| callback := CbSendAppStatus; period := APP_STATUS_UPDATE_INTERVAL; due := due |}.

(** Everything the client has sent, over all its port streams, oldest
    first. *)
Definition allPosted (w : World) : list Message := flat_map posted (ports w).

(** The state the client keeps for the UI to observe: the redux store, the
    feature flags and the query cache. *)
Definition localState (w : World)
    : list (AppDispatch * Action) * Value * Value * list Invalidation :=
  (dispatched w, growthbookAttributes w, growthbookFeatures w,
   invalidatedQueries w).

(** A client on which [init] has not been called. *)
Definition Idle (w : World) : Prop :=
  this w = newClient /\ ports w = [] /\ intervals w = [].

(** A client initialised at time [t0]: it holds the last port stream made,
    which is connected and has both handlers subscribed; the streams made
    before it are disconnected; the status interval is registered once, and
    comes due at [t0] plus a multiple of its period, within one period from
    now. *)
Definition Running (t0 : Z) (w : World) : Prop :=
  exists d older cur due,
    this w = {| _portStream := Some (List.length older);
                _dispatch := Some d; _initialized := true |}
    /\ ports w = (older ++ [cur])%list
    /\ connected cur = true
    /\ onMessage cur = [CbHandleIncomingMessage]
    /\ onDisconnect cur = [CbCreatePortStream]
    /\ Forall (fun s => connected s = false) older
    /\ intervals w = [statusInterval due]
    /\ (now w < due <= now w + APP_STATUS_UPDATE_INTERVAL)%Z
    /\ ((due - t0) mod APP_STATUS_UPDATE_INTERVAL = 0)%Z.

Section Shapes.

Context {imports : Imports}.

(** The success shape a projecting method expects of the response payload:
    the type guard it applies before it projects. The other methods hand
    the response envelope back as it is. *)
Definition expectedShape (op : Operation) : option (Obj -> bool) :=
  match op with
  | SignData _ _ => Some (fun p => isMethodPayload p "signDataResponse")
  | DeriveNextAccount => Some (fun p => isKeyringPayload p "deriveNextAccount")
  | ExportAccount _ _ => Some (fun p => isKeyringPayload p "exportAccount")
  | GetEntropy _ => Some (fun p => isKeyringPayload p "getEntropy")
  | FetchPendingQredoConnectRequest _ =>
      Some (fun p => isQredoConnectPayload p "getPendingRequestResponse")
  | GetQredoConnectionInfo _ _ =>
      Some (fun p => isQredoConnectPayload p "getQredoInfoResponse")
  | AcceptQredoConnection _ =>
      Some (fun p => isQredoConnectPayload p "acceptQredoConnectionResponse")
  | GetStoredEntities _ => Some (fun p => isMethodPayload p "storedEntitiesResponse")
  | CreateMnemonicAccountSource _ =>
      Some (fun p => isMethodPayload p "accountSourceCreationResponse")
  | CreateAccounts _ => Some (fun p => isMethodPayload p "accountsCreatedResponse")
  | DeleteAccountSourceByType _ =>
      Some (fun p => isMethodPayload p "deleteAccountSourceByTypeResponse")
  | GetStorageMigrationStatus =>
      Some (fun p => isMethodPayload p "storageMigrationStatus")
  | GetAccountSourceEntropy _ =>
      Some (fun p => isMethodPayload p "getAccountSourceEntropyResponse")
  | _ => None
  end.

(** A payload one of the guards of [handleIncomingMessage] accepts. *)
Definition recognized (payload : Obj) : bool :=
  isPermissionRequests payload
  || isGetTransactionRequestsResponse payload
  || isUpdateActiveOrigin payload
  || isLoadedFeaturesPayload payload
  || isSetNetworkPayload payload
  || isMethodPayload payload "entitiesUpdated".

End Shapes.

(* ================================================================== *)
(** * Further vocabulary: what the methods return and send *)
(* ================================================================== *)


(** What a projecting method returns, for the methods that return a part
    of [payload.args] unchecked: [Some k] is the property [payload.args.k],
    [None] is [payload.args] itself. *)
Definition projectedProperty (op : Operation) : option (option string) :=
  match op with
  | SignData _ _ => Some (Some "signature")
  | FetchPendingQredoConnectRequest _ => Some (Some "request")
  | GetQredoConnectionInfo _ _ => Some None
  | AcceptQredoConnection _ => Some (Some "accounts")
  | DeleteAccountSourceByType _ => Some (Some "success")
  | GetStorageMigrationStatus => Some (Some "status")
  | GetAccountSourceEntropy _ => Some None
  | _ => None
  end.

(** A ['keyring'] ['appStatusUpdate'] message. *)
Definition isStatusUpdate (m : Message) : bool :=
  JS.strictEqStr "keyring" (JS.lookup "type" (payload m))
  && JS.strictEqStr "appStatusUpdate" (JS.lookup "method" (payload m)).

(** How many status updates the client has sent so far. *)
Definition statusCount (w : World) : nat :=
  List.length (filter isStatusUpdate (allPosted w)).

(** The id of the [k]-th message [init] creates after the status update,
    when the id counter stood at [n] before the call. *)
Definition initRequestId (n k : nat) : string := "uuid-" ++ decimal (k + n).

(** An entitiesUpdated broadcast for the accounts. *)
Definition accountsUpdated : Message :=
  {| id := "uuid-b2";
     payload := [("type", VStr "method-payload");
                 ("method", VStr "entitiesUpdated");
                 ("args", VObj [("type", VStr "accounts")])] |}.

(* ================================================================== *)
(** * An implementation of the imports, to run the client on examples *)
(* ================================================================== *)

Module Wallet.

Definition alphabet : string :=
  "ABCDEFGHIJKLMNOPQRSTUVWXYZabcdefghijklmnopqrstuvwxyz0123456789+/".

Definition digit (n : N) : ascii :=
  match String.get (N.to_nat n) alphabet with
  | Some c => c
  | None => "="%char
  end.

(** Base64 of a list of octets (RFC 4648, padded). *)
Fixpoint base64 (bs : list N) : string :=
  match bs with
  | [] => EmptyString
  | [a] =>
      String (digit (a / 4)) (String (digit ((a mod 4) * 16)) "==")
  | [a; b] =>
      String (digit (a / 4))
        (String (digit ((a mod 4) * 16 + b / 16))
           (String (digit ((b mod 16) * 4)) "="))
  | a :: b :: c :: rest =>
      String (digit (a / 4))
        (String (digit ((a mod 4) * 16 + b / 16))
           (String (digit ((b mod 16) * 4 + c / 64))
              (String (digit (c mod 64)) (base64 rest))))
  end%N.

(** A payload whose [type] is [t]. *)
Definition hasType (t : string) (payload : Obj) : bool :=
  JS.strictEqStr t (JS.lookup "type" payload).

(** A payload whose [type] is [t] and whose [method] is [m]. *)
Definition hasMethod (t m : string) (payload : Obj) : bool :=
  hasType t payload && JS.has "method" payload
  && JS.strictEqStr m (JS.lookup "method" payload).

(** Modelled from the spec: the type guards of [_payloads], the query keys
    and [toB64], none of which is part of this development. Each guard
    compares the payload's discriminant: [type], and [method] for the
    keyring, method and qredo-connect payloads (section 6). *)
Definition imports : Imports := {|
  isKeyringPayload p m := hasMethod "keyring" m p;
  isMethodPayload p m := hasMethod "method-payload" m p;
  isQredoConnectPayload p m := hasMethod "qredo-connect" m p;
  isPermissionRequests := hasType "permission-request";
  isGetTransactionRequestsResponse := hasType "get-transaction-requests-response";
  isUpdateActiveOrigin := hasType "update-active-origin";
  isLoadedFeaturesPayload := hasType "features-response";
  isSetNetworkPayload := hasType "set-network";
  accountsQueryKey := [VStr "background"; VStr "client"; VStr "accounts"];
  accountSourcesQueryKey := [VStr "background"; VStr "client"; VStr "account"; VStr "sources"];
  toB64 bs := base64 (List.map Byte.to_N bs)
|}.

(** A client that has been initialised in a visible document at time 0,
    with redux store 7. *)
Definition started : World := fst (init 7 (blank "visible" 0)).

(** The port stream it holds. *)
Definition port0 : PortStream := nth 0 (ports started) subscribedPort.

(** What the background service may answer to the request sent next. *)
Definition signDataResponse : Message :=
  {| id := "uuid-5";
     payload := [("type", VStr "method-payload");
                 ("method", VStr "signDataResponse");
                 ("args", VObj [("signature", VStr "AA==")])] |}.

Definition entropyResponse (entropy : string) : Message :=
  {| id := "uuid-5";
     payload := [("type", VStr "keyring");
                 ("method", VStr "getEntropy");
                 ("return", VStr entropy)] |}.

Definition accountsCreatedResponse (accounts : list Value) : Message :=
  {| id := "uuid-5";
     payload := [("type", VStr "method-payload");
                 ("method", VStr "accountsCreatedResponse");
                 ("args", VObj [("accounts", VArr accounts)])] |}.

(** The wallet after [getEntropy()], and the promise the call returned. *)
Definition afterGetEntropy : World := fst (@getEntropy imports None started).

Definition entropyPromise : Promise Value :=
  match snd (@getEntropy imports None started) with
  | Ok P => P
  | Throw e => rejected e
  end.

(** The promise [init] returned to the wallet that was started. *)
Definition initPromise : Promise Value :=
  match snd (init 7 (blank "visible" 0)) with
  | Ok P => P
  | Throw e => rejected e
  end.

(** The answer to the first request of [init]: no permission request is
    waiting. *)
Definition permissionRequests : Message :=
  {| id := "uuid-1";
     payload := [("type", VStr "permission-request");
                 ("permissions", VArr [])] |}.

(** A broadcast of a kind the client does not know. *)
Definition lockTimeoutTick : Message :=
  {| id := "uuid-b1"; payload := [("type", VStr "lock-timeout-tick")] |}.

End Wallet.

(* ================================================================== *)
(** * Properties *)
(* ================================================================== *)

(** ** One response settles a call *)

Lemma take1_ofList {A} (l : list A) :
  Rx.take 1 (Rx.ofList l) =
  match l with
  | [] => Open
  | m :: _ => Next m Complete
  end.
Proof. destruct l; reflexivity. Qed.

Lemma lastValueFrom_take1 {A} (l : list A) :
  Rx.lastValueFrom (Rx.take 1 (Rx.ofList l)) = settledBy Ok l.
Proof. rewrite take1_ofList. destruct l; reflexivity. Qed.

Lemma lastValueFrom_take1_map {A B} (f : A -> Result B) (l : list A) :
  Rx.lastValueFrom (Rx.map f (Rx.take 1 (Rx.ofList l))) = settledBy f l.
Proof.
  rewrite take1_ofList. destruct l as [|m rest]; [reflexivity|].
  unfold settledBy. simpl. destruct (f m); reflexivity.
Qed.

(** ** The table of port streams *)

Lemma adjust_last (f : PortStream -> PortStream) (l : list PortStream)
    (x : PortStream) :
  Port.adjust (List.length l) f (l ++ [x]) = (l ++ [f x])%list.
Proof. induction l as [|y l IH]; simpl; [reflexivity | now rewrite IH]. Qed.

Lemma nth_error_last (l : list PortStream) (x : PortStream) :
  nth_error (l ++ [x]) (List.length l) = Some x.
Proof. induction l as [|y l IH]; simpl; [reflexivity | exact IH]. Qed.

(** In a table whose streams are all disconnected but the last, a connected
    stream is the last. *)
Lemma connected_is_last (older : list PortStream) (cur s : PortStream) (q : PortRef) :
  Forall (fun s => connected s = false) older ->
  nth_error (older ++ [cur]) q = Some s ->
  connected s = true ->
  q = List.length older /\ s = cur.
Proof.
  intros Hall. revert q. induction Hall as [|y l Hy Hall IH]; intros q Hq Hc.
  - destruct q as [|q]; simpl in Hq.
    + injection Hq as <-. split; reflexivity.
    + destruct q; discriminate Hq.
  - destruct q as [|q]; simpl in Hq.
    + injection Hq as <-. congruence.
    + destruct (IH q Hq Hc) as [-> ->]. split; reflexivity.
Qed.

Lemma flat_map_posted_last (l : list PortStream) (x : PortStream) :
  flat_map posted (l ++ [x]) = (flat_map posted l ++ posted x)%list.
Proof. rewrite flat_map_app. simpl. now rewrite app_nil_r. Qed.

Arguments Rx.take : simpl never.
Arguments Rx.map : simpl never.
Arguments Rx.lastValueFrom : simpl never.
Arguments decimal : simpl never.
Arguments nextId : simpl never.

Section Properties.

Context {imports : Imports}.

(** ** Sending *)

Lemma currentPort_connected w :
  portConnected w = true ->
  exists p s, _portStream (this w) = Some p /\ nth_error (ports w) p = Some s
              /\ connected s = true.
Proof.
  unfold portConnected, currentPort.
  destruct (_portStream (this w)) as [p|] eqn:Hp; [|discriminate].
  destruct (nth_error (ports w) p) as [s|] eqn:Hs; [|discriminate].
  intros H. exists p, s. repeat split; assumption || reflexivity.
Qed.

Lemma sendMessage_connected w p s msg :
  _portStream (this w) = Some p ->
  nth_error (ports w) p = Some s ->
  connected s = true ->
  sendMessage msg w =
  (sent p msg w, Ok (Port.responsesTo p (id msg) (List.length (received s)))).
Proof.
  intros Hp Hs Hc.
  unfold sendMessage, bind, gets, Port.isConnected, Port.sendMessage.
  simpl. rewrite Hp. simpl. rewrite Hs, Hc. simpl. rewrite Hs, Hc. reflexivity.
Qed.

Lemma sendMessage_disconnected w msg :
  portConnected w = false ->
  sendMessage msg w = (w, Throw ChannelNotConnected).
Proof.
  unfold portConnected, currentPort.
  unfold sendMessage, bind, gets, Port.isConnected, throw. simpl.
  destruct (_portStream (this w)) as [p|]; [|reflexivity].
  destruct (nth_error (ports w) p) as [s|]; [|reflexivity].
  intros ->. reflexivity.
Qed.

Lemma request_connected {A} w p s payload (k : Observable Message -> M A) :
  _portStream (this w) = Some p ->
  nth_error (ports w) p = Some s ->
  connected s = true ->
  (msg <- createMessage payload ;; obs <- sendMessage msg ;; k obs) w
  = k (Port.responsesTo p (nextId w) (List.length (received s)))
      (sent p {| id := nextId w; payload := payload |}
            (setUuids (S (uuids w)) w)).
Proof.
  intros Hp Hs Hc. unfold bind at 1. unfold createMessage.
  unfold bind. erewrite sendMessage_connected by (simpl; eassumption).
  reflexivity.
Qed.

Lemma request_disconnected {A} w payload (k : Observable Message -> M A) :
  portConnected w = false ->
  (msg <- createMessage payload ;; obs <- sendMessage msg ;; k obs) w
  = (setUuids (S (uuids w)) w, Throw ChannelNotConnected).
Proof.
  intros H. unfold bind at 1. unfold createMessage.
  unfold bind. rewrite sendMessage_disconnected by exact H.
  reflexivity.
Qed.

Lemma responses_take1 p i n w' :
  lastValueFrom (pipe (Port.responsesTo p i n) (Rx.take 1)) w'
  = settledBy Ok (Port.inbox p i n w').
Proof. apply lastValueFrom_take1. Qed.

Lemma responses_take1_map {B} p i n (f : Message -> Result B) w' :
  lastValueFrom (pipe2 (Port.responsesTo p i n) (Rx.take 1) (Rx.map f)) w'
  = settledBy f (Port.inbox p i n w').
Proof. apply lastValueFrom_take1_map. Qed.

(** Unfolds a call down to the request its method makes. *)
Ltac open_call :=
  unfold call, void, envelope, awaitable;
  unfold sendPermissionResponse, sendGetPermissionRequests,
    sendTransactionRequestResponse, sendGetTransactionRequests, disconnectApp,
    createVault, unlockWallet, lockWallet, clearWallet, getEntropy,
    setKeyringLockTimeout, signData, setActiveNetworkEnv, selectAccount,
    deriveNextAccount, verifyPassword, exportAccount, importPrivateKey,
    fetchPendingQredoConnectRequest, getQredoConnectionInfo,
    acceptQredoConnection, rejectQredoConnection, getStoredEntities,
    createMnemonicAccountSource, createAccounts, deleteAccountSourceByType,
    unlockAccountSourceOrAccount, lockAccountSourceOrAccount,
    setAccountNickname, getStorageMigrationStatus, doStorageMigration,
    storeLedgerAccountsPublicKeys, getAccountSourceEntropy;
  cbv zeta;
  try match goal with
      | |- context [JS.defaultTo false ?b] => destruct (JS.defaultTo false b)
      end;
  unfold bind at 1.

Lemma thenP_take1 {C} p i n (g : Message -> C) w' :
  thenP (lastValueFrom (pipe (Port.responsesTo p i n) (Rx.take 1))) g w'
  = settledBy (fun m => Ok (g m)) (Port.inbox p i n w').
Proof.
  unfold thenP. rewrite responses_take1.
  destruct (Port.inbox p i n w'); reflexivity.
Qed.

Lemma settledBy_of_first {A B} (f : A -> Result B) :
  exists settle : A -> Settlement B,
    (forall m, settle m <> Pending)
    /\ forall l, settledBy f l = match l with
                                 | [] => Pending
                                 | first :: _ => settle first
                                 end.
Proof.
  exists (fun m => match f m with Ok b => Resolved b | Throw e => Rejected e end).
  split.
  - intros m. destruct (f m); discriminate.
  - intros [|m rest]; reflexivity.
Qed.

(** ** A send on a disconnected channel *)

Lemma call_disconnected (op : Operation) (w : World) :
  portConnected w = false ->
  exists r, call op w = (setUuids (S (uuids w)) w, r)
            /\ failsWith r ChannelNotConnected.
Proof.
  intros H.
  destruct op; open_call; rewrite request_disconnected by exact H.
  all: try (eexists; split; [reflexivity | left; reflexivity]).
  eexists; split; [reflexivity|].
  right. eexists; split; [reflexivity|]. intros w'. reflexivity.
Qed.

(** C2. A call of any request method while the client holds no port stream,
    or a port stream that is not connected, fails with
    [ChannelNotConnected] (thrown, or as the rejection of the promise of
    the one [async] method), and leaves the world as it was but for the id
    it consumed: nothing went out on any port and nothing was put aside to
    be sent later. *)
Theorem disconnected_send_fails (op : Operation) (w : World) :
  portConnected w = false ->
  exists r, call op w = (setUuids (S (uuids w)) w, r)
            /\ failsWith r ChannelNotConnected.
Proof. exact (call_disconnected op w). Qed.

(** ** What a call on a connected channel does *)

Lemma call_connected op w p s :
  _portStream (this w) = Some p ->
  nth_error (ports w) p = Some s ->
  connected s = true ->
  exists msg r,
    call op w = (sent p msg (setUuids (S (uuids w)) w), Ok r)
    /\ id msg = nextId w
    /\ (if awaitsResponse op
        then exists P (f : Message -> Result Value),
               r = Awaitable P
               /\ forall w', P w' = settledBy f
                                      (Port.inbox p (nextId w)
                                         (List.length (received s)) w')
        else r = Void).
Proof.
  intros Hp Hs Hc.
  destruct op; open_call; rewrite (request_connected w p s) by assumption;
    simpl; (eexists; eexists; split; [reflexivity | split; [reflexivity|]]).
  all: try reflexivity.
  all: eexists; eexists; (split; [reflexivity|]); intros w'.
  all: first [ apply responses_take1_map | apply thenP_take1 ].
Qed.

(** ** At most one response per call *)

(** C4. A call of a method that waits for a response, made on a connected
    channel, sends one request under a fresh id and returns a promise that
    is pending as long as the channel has delivered no envelope with that
    id since the send, and is settled (resolved or rejected) by the first
    such envelope alone: whatever the channel delivers under that id
    afterwards has no effect on it. *)
Theorem first_response_settles_call (op : Operation) (w : World)
    (p : PortRef) (s : PortStream) :
  _portStream (this w) = Some p ->
  nth_error (ports w) p = Some s ->
  connected s = true ->
  awaitsResponse op = true ->
  exists msg P (settle : Message -> Settlement Value),
    call op w = (sent p msg (setUuids (S (uuids w)) w), Ok (Awaitable P))
    /\ id msg = nextId w
    /\ (forall m, settle m <> Pending)
    /\ forall w',
         P w' = match Port.inbox p (id msg) (List.length (received s)) w' with
                | [] => Pending
                | first :: _ => settle first
                end.
Proof.
  intros Hp Hs Hc Hop.
  destruct (call_connected op w p s Hp Hs Hc) as (msg & r & Hcall & Hid & Hr).
  rewrite Hop in Hr. destruct Hr as (P & f & -> & HP).
  destruct (settledBy_of_first f) as (settle & Hsettled & Hfirst).
  exists msg, P, settle. repeat split; try assumption.
  intros w'. rewrite HP, Hfirst, Hid. reflexivity.
Qed.

(** ** [verifyPassword] *)

(** C6. On a connected channel [verifyPassword] sends exactly one envelope:
    of type ['keyring'] when the legacy flag is [true], of type
    ['method-payload'] when it is [false] or left out (the default); in
    both cases the method is ['verifyPassword'] and the arguments are the
    given password and nothing else. *)
Theorem verifyPassword_envelope (password : string) (legacyAccounts : option bool)
    (w : World) (p : PortRef) (s : PortStream) :
  _portStream (this w) = Some p ->
  nth_error (ports w) p = Some s ->
  connected s = true ->
  exists P,
    verifyPassword password legacyAccounts w
    = (sent p
         {| id := nextId w;
            payload :=
              [("type", VStr match legacyAccounts with
                             | Some true => "keyring"
                             | Some false | None => "method-payload"
                             end);
               ("method", VStr "verifyPassword");
               ("args", VObj [("password", VStr password)])] |}
         (setUuids (S (uuids w)) w),
       Ok P).
Proof.
  intros Hp Hs Hc. unfold verifyPassword. cbv zeta.
  destruct legacyAccounts as [[|]|]; unfold JS.defaultTo;
    rewrite (request_connected w p s) by assumption;
    eexists; reflexivity.
Qed.

(** ** [getEntropy] *)

Lemma truthy_string (s : string) : JS.truthy (VStr s) = true <-> s <> EmptyString.
Proof.
  simpl. destruct (String.eqb_spec s EmptyString); simpl; split; congruence.
Qed.

(** C7. On a connected channel [getEntropy] sends its request and returns a
    promise that the first response settles. It resolves with the payload's
    [return] exactly when the payload is a getEntropy-shaped keyring payload
    whose [return] is a non-empty string (or, were the background to send
    something else than the string it declares, any other value that is
    not [undefined], [null], [false] or [0]); on every other response, an
    empty or missing [return] included, it is rejected with
    [MnemonicNotFound]. *)
Theorem getEntropy_settles (password : option string) (w : World)
    (p : PortRef) (s : PortStream) :
  _portStream (this w) = Some p ->
  nth_error (ports w) p = Some s ->
  connected s = true ->
  exists msg P,
    getEntropy password w = (sent p msg (setUuids (S (uuids w)) w), Ok P)
    /\ id msg = nextId w
    /\ forall w',
         P w' = match Port.inbox p (id msg) (List.length (received s)) w' with
                | [] => Pending
                | response :: _ =>
                    if isKeyringPayload (payload response) "getEntropy"
                    then match JS.lookup "return" (payload response) with
                         | VStr (String c rest) => Resolved (VStr (String c rest))
                         | VStr EmptyString => Rejected MnemonicNotFound
                         | VUndefined => Rejected MnemonicNotFound
                         | VNull => Rejected MnemonicNotFound
                         | VBool false => Rejected MnemonicNotFound
                         | VNum Z0 => Rejected MnemonicNotFound
                         | other => Resolved other
                         end
                    else Rejected MnemonicNotFound
                end.
Proof.
  intros Hp Hs Hc. unfold getEntropy.
  rewrite (request_connected w p s) by assumption.
  eexists; eexists; split; [reflexivity | split; [reflexivity|]].
  intros w'. rewrite responses_take1_map. simpl.
  destruct (Port.inbox p (nextId w) (List.length (received s)) w') as [|m rest];
    [reflexivity|].
  unfold settledBy.
  destruct (isKeyringPayload (payload m) "getEntropy"); [|reflexivity].
  destruct (JS.lookup "return" (payload m)) as [| |[|]|[|n|n]|[|c r]|l|o];
    reflexivity.
Qed.

(** ** [createAccounts] *)

Lemma strictNeStr_false (t : string) (v : Value) :
  JS.strictNeStr t v = false <-> v = VStr t.
Proof.
  unfold JS.strictNeStr, JS.strictEqStr. destruct v; simpl; try (split; discriminate).
  destruct (String.eqb_spec t s); simpl; split; congruence.
Qed.

(** C10. On a connected channel [createAccounts] sends its request and
    returns a promise that the first response settles. If that response is
    an accountsCreatedResponse whose accounts list is empty, or whose first
    account has a type other than the requested one, the promise is
    rejected. If the promise resolves, its value is the response's
    [args.accounts], the first element of that value has the requested
    type, and so, the value being a list, it is not empty. *)
Theorem createAccounts_checked (inputs : CreateAccountsArgs) (w : World)
    (p : PortRef) (s : PortStream) :
  _portStream (this w) = Some p ->
  nth_error (ports w) p = Some s ->
  connected s = true ->
  exists msg P,
    createAccounts inputs w = (sent p msg (setUuids (S (uuids w)) w), Ok P)
    /\ id msg = nextId w
    /\ forall w' response rest,
         Port.inbox p (id msg) (List.length (received s)) w' = response :: rest ->
         (forall accounts,
             isMethodPayload (payload response) "accountsCreatedResponse" = true ->
             JS.prop (JS.lookup "args" (payload response)) "accounts"
             = Ok (VArr accounts) ->
             match accounts with
             | [] => True
             | first :: _ => JS.optProp first "type" <> VStr (accountsType inputs)
             end ->
             exists e, P w' = Rejected e)
         /\ (forall v,
                P w' = Resolved v ->
                JS.prop (JS.lookup "args" (payload response)) "accounts" = Ok v
                /\ (exists first,
                       JS.first v = Ok first
                       /\ JS.optProp first "type" = VStr (accountsType inputs))
                /\ forall accounts,
                     v = VArr accounts ->
                     exists first others,
                       accounts = first :: others
                       /\ JS.optProp first "type" = VStr (accountsType inputs)).
Proof.
  intros Hp Hs Hc. unfold createAccounts.
  rewrite (request_connected w p s) by assumption.
  eexists; eexists; split; [reflexivity | split; [reflexivity|]].
  intros w' response rest Hin. rewrite responses_take1_map. simpl id.
  simpl id in Hin. rewrite Hin. unfold settledBy.
  destruct (isMethodPayload (payload response) "accountsCreatedResponse");
    simpl negb; cbv iota.
  2: { split; [intros ? ?; discriminate | intros v Hv; discriminate]. }
  destruct (JS.prop (JS.lookup "args" (payload response)) "accounts")
    as [accs|e] eqn:Haccs; unfold bindR.
  2: { split; [intros ? _ ?; discriminate | intros v Hv; discriminate]. }
  destruct (JS.first accs) as [first|e] eqn:Hfirst.
  2: { split; [| intros v Hv; discriminate].
       intros accounts _ Heq. injection Heq as ->. eexists; reflexivity. }
  destruct (JS.strictNeStr (accountsType inputs) (JS.optProp first "type"))
    eqn:Hne.
  - split; [intros; eexists; reflexivity | intros v Hv; discriminate].
  - apply strictNeStr_false in Hne. split.
    + intros accounts _ Heq Hbad. injection Heq as ->. exfalso.
      destruct accounts as [|a others]; simpl in Hfirst;
        injection Hfirst as <-.
      * discriminate Hne.
      * exact (Hbad Hne).
    + intros v Hv. injection Hv as <-. split; [reflexivity|]. split.
      * exists first. split; [assumption | assumption].
      * intros accounts ->. destruct accounts as [|a others]; simpl in Hfirst;
          injection Hfirst as <-.
        -- discriminate Hne.
        -- exists a, others. split; [reflexivity | assumption].
Qed.

(** ** Responses of an unexpected shape *)

(** C1, as the code has it. A call of a projecting method on a connected
    channel sends its request and returns a promise; when the first
    response fails the type guard of the shape the method expects, the
    promise is rejected: with [MnemonicNotFound] by [getEntropy], with an
    [UnexpectedResponseShape] failure by every other projecting method. *)
Theorem wrong_shape_rejected (op : Operation) (shape : Obj -> bool)
    (w : World) (p : PortRef) (s : PortStream) :
  expectedShape op = Some shape ->
  _portStream (this w) = Some p ->
  nth_error (ports w) p = Some s ->
  connected s = true ->
  exists msg P,
    call op w = (sent p msg (setUuids (S (uuids w)) w), Ok (Awaitable P))
    /\ id msg = nextId w
    /\ forall w' response rest,
         Port.inbox p (id msg) (List.length (received s)) w' = response :: rest ->
         shape (payload response) = false ->
         exists e,
           P w' = Rejected e
           /\ match op with
              | GetEntropy _ => e = MnemonicNotFound
              | _ => UnexpectedResponseShape e
              end.
Proof.
  intros Hshape Hp Hs Hc.
  destruct op; simpl in Hshape; try discriminate Hshape;
    injection Hshape as <-.
  all: open_call; rewrite (request_connected w p s) by assumption.
  all: eexists; eexists; split; [reflexivity | split; [reflexivity|]].
  all: intros w' response rest Hin Hbad; simpl id in Hin.
  all: rewrite responses_take1_map, Hin; unfold settledBy.
  all: rewrite Hbad; simpl.
  all: eexists; split; [reflexivity|].
  all: unfold UnexpectedResponseShape, MnemonicNotFound; simpl; tauto.
Qed.

(** ** Incoming messages *)

Lemma handleIncomingMessage_uninitialized (msg : Message) (w : World) :
  _initialized (this w) = false \/ _dispatch (this w) = None ->
  handleIncomingMessage msg w
  = (w, Throw (Error "BackgroundClient is not initialized to handle incoming messages")).
Proof.
  unfold handleIncomingMessage, bind, gets. simpl.
  destruct (_initialized (this w)), (_dispatch (this w));
    intros [H|H]; try discriminate H; reflexivity.
Qed.

Lemma handleIncomingMessage_unrecognized (msg : Message) (w : World) d :
  _initialized (this w) = true ->
  _dispatch (this w) = Some d ->
  recognized (payload msg) = false ->
  handleIncomingMessage msg w = (w, Ok tt).
Proof.
  intros Hi Hd Hr. unfold recognized in Hr.
  repeat (apply orb_false_elim in Hr; destruct Hr as [Hr ?]).
  unfold handleIncomingMessage, bind, gets. simpl. rewrite Hi, Hd.
  repeat match goal with H : _ = false |- _ => rewrite H; clear H end.
  reflexivity.
Qed.

(** Handling a message touches the local state only: the client's fields,
    its ports, its intervals, the clock and the id counter stay. *)
Lemma handleIncomingMessage_core (msg : Message) (w : World) :
  let w' := fst (handleIncomingMessage msg w) in
  this w' = this w /\ ports w' = ports w /\ intervals w' = intervals w
  /\ now w' = now w /\ uuids w' = uuids w
  /\ visibilityState w' = visibilityState w.
Proof.
  unfold handleIncomingMessage, bind, gets. simpl.
  destruct (_initialized (this w)); [|simpl; tauto].
  destruct (_dispatch (this w)); [|simpl; tauto].
  destruct (isPermissionRequests (payload msg)); [simpl; tauto|].
  destruct (isGetTransactionRequestsResponse (payload msg)); [simpl; tauto|].
  destruct (isUpdateActiveOrigin (payload msg)); [simpl; tauto|].
  destruct (isLoadedFeaturesPayload (payload msg)); [simpl; tauto|].
  destruct (isSetNetworkPayload (payload msg)); [simpl; tauto|].
  destruct (isMethodPayload (payload msg) "entitiesUpdated"); [|simpl; tauto].
  unfold liftR.
  destruct (JS.prop (JS.lookup "args" (payload msg)) "type") as [entityType|];
    [|simpl; tauto].
  destruct (entitiesToClientQueryKeys entityType); simpl; tauto.
Qed.

(** ** The port stream and the status message *)

Lemma createPortStream_spec (w : World) :
  createPortStream w
  = (setThis {| _portStream := Some (List.length (ports w));
                _dispatch := _dispatch (this w);
                _initialized := _initialized (this w) |}
       (setPorts (ports w ++ [subscribedPort])%list w),
     Ok tt).
Proof.
  unfold createPortStream, bind, Port.connectToBackgroundService,
    setPortStream, Port.subscribeOnDisconnect, Port.subscribeOnMessage, modify.
  simpl. f_equal. unfold setThis, setPorts. simpl. f_equal.
  rewrite !adjust_last. reflexivity.
Qed.

Lemma sendAppStatus_connected (w : World) (p : PortRef) (s : PortStream) :
  _portStream (this w) = Some p ->
  nth_error (ports w) p = Some s ->
  connected s = true ->
  sendAppStatus w
  = (sent p (appStatusUpdate (nextId w) (visible w)) (setUuids (S (uuids w)) w),
     Ok tt).
Proof.
  intros Hp Hs Hc. unfold sendAppStatus. unfold bind at 1. unfold gets.
  rewrite (request_connected w p s) by assumption. reflexivity.
Qed.

Lemma init_initialized (d : AppDispatch) (w : World) :
  _initialized (this w) = true ->
  init d w = (w, Throw (Error "[BackgroundClient] already initialized")).
Proof.
  intros H. unfold init, bind, gets. simpl. rewrite H. reflexivity.
Qed.

Lemma plain_request_connected w p s payload :
  _portStream (this w) = Some p ->
  nth_error (ports w) p = Some s ->
  connected s = true ->
  (msg <- createMessage payload ;; obs <- sendMessage msg ;;
   ret (lastValueFrom (pipe obs (Rx.take 1)))) w
  = (sent p {| id := nextId w; payload := payload |} (setUuids (S (uuids w)) w),
     Ok (lastValueFrom
           (pipe (Port.responsesTo p (nextId w) (List.length (received s)))
                 (Rx.take 1)))).
Proof. intros. now rewrite (request_connected w p s). Qed.

(** [init] on a client that is not initialised: the flag and the dispatch
    function are set, a port stream is made and subscribed to, the status
    goes out at once, the interval is registered, and the four requests
    follow. *)
Lemma init_uninitialized (d : AppDispatch) (w : World) :
  _initialized (this w) = false ->
  exists P, init d w
  = ({| this := {| _portStream := Some (List.length (ports w));
                  _dispatch := Some d; _initialized := true |};
       ports :=
         ports w ++
         [{| channelName := "sui_ui<->background"; connected := true;
             posted :=
               [appStatusUpdate (nextId w) (visible w);
                {| id := "uuid-" ++ decimal (1 + uuids w);
                   payload := [("type", VStr "get-permission-requests")] |};
                {| id := "uuid-" ++ decimal (2 + uuids w);
                   payload := [("type", VStr "get-transaction-requests")] |};
                {| id := "uuid-" ++ decimal (3 + uuids w);
                   payload := [("type", VStr "get-features")] |};
                {| id := "uuid-" ++ decimal (4 + uuids w);
                   payload := [("type", VStr "get-network")] |}];
             received := [];
             onMessage := [CbHandleIncomingMessage];
             onDisconnect := [CbCreatePortStream] |}];
       intervals :=
         intervals w ++ [statusInterval (now w + APP_STATUS_UPDATE_INTERVAL)];
       now := now w;
       visibilityState := visibilityState w;
       uuids := 5 + uuids w;
       dispatched := dispatched w;
       growthbookAttributes := growthbookAttributes w;
       growthbookFeatures := growthbookFeatures w;
       invalidatedQueries := invalidatedQueries w;
       uncaught := uncaught w |}, Ok P).
Proof.
  intros Hi. eexists. unfold init. unfold bind at 1. unfold gets. cbv iota beta.
  rewrite Hi. cbv iota.
  unfold bind at 1. unfold modify at 1. cbv iota beta.
  unfold bind at 1. unfold modify at 1. cbv iota beta.
  unfold bind at 1. rewrite createPortStream_spec. cbv iota beta.
  unfold bind at 1.
  erewrite (sendAppStatus_connected _ (List.length (ports w)) subscribedPort);
    [| reflexivity | simpl; apply nth_error_last | reflexivity ].
  cbv iota beta.
  unfold setupAppStatusUpdateInterval, setInterval.
  unfold bind at 1. unfold modify at 1. cbv iota beta.
  unfold sent. simpl ports. rewrite adjust_last.
  unfold sendGetPermissionRequests, sendGetTransactionRequests, loadFeatures,
    getNetwork.
  unfold bind at 1.
  erewrite (plain_request_connected _ (List.length (ports w)));
    [| reflexivity | simpl; apply nth_error_last | reflexivity ].
  cbv iota beta. unfold sent. simpl ports. rewrite adjust_last.
  unfold bind at 1.
  erewrite (plain_request_connected _ (List.length (ports w)));
    [| reflexivity | simpl; apply nth_error_last | reflexivity ].
  cbv iota beta. unfold sent. simpl ports. rewrite adjust_last.
  unfold bind at 1.
  erewrite (plain_request_connected _ (List.length (ports w)));
    [| reflexivity | simpl; apply nth_error_last | reflexivity ].
  cbv iota beta. unfold sent. simpl ports. rewrite adjust_last.
  unfold bind at 1.
  erewrite (plain_request_connected _ (List.length (ports w)));
    [| reflexivity | simpl; apply nth_error_last | reflexivity ].
  cbv iota beta. unfold sent. simpl ports. rewrite adjust_last.
  unfold ret. apply f_equal2; [| reflexivity].
  destruct w as [c ps ivs t vis n ds ga gf iq un]. vm_compute. reflexivity.
Qed.

(** ** One event at a time *)

Lemma reportUncaught_handle (msg : Message) (w : World) :
  let w' := reportUncaught (handleIncomingMessage msg) w in
  this w' = this w /\ ports w' = ports w /\ intervals w' = intervals w
  /\ now w' = now w /\ uuids w' = uuids w
  /\ visibilityState w' = visibilityState w.
Proof.
  pose proof (handleIncomingMessage_core msg w) as H. unfold reportUncaught.
  destruct (handleIncomingMessage msg w) as [w1 [[]|e]]; exact H.
Qed.

Lemma step_message_current (w : World) (older : list PortStream)
    (cur : PortStream) (msg : Message) :
  ports w = (older ++ [cur])%list ->
  connected cur = true ->
  onMessage cur = [CbHandleIncomingMessage] ->
  step (PortMessage (List.length older) msg) w
  = reportUncaught (handleIncomingMessage msg)
      (setPorts (older ++ [Port.receive msg cur]) w).
Proof.
  intros Hps Hc Hm. unfold step. rewrite Hps, nth_error_last, Hc, Hm, adjust_last.
  reflexivity.
Qed.

Lemma step_disconnect_current (w : World) (older : list PortStream)
    (cur : PortStream) :
  ports w = (older ++ [cur])%list ->
  connected cur = true ->
  onDisconnect cur = [CbCreatePortStream] ->
  step (PortDisconnect (List.length older)) w
  = setThis {| _portStream := Some (S (List.length older));
               _dispatch := _dispatch (this w);
               _initialized := _initialized (this w) |}
      (setPorts (older ++ [Port.drop cur; subscribedPort]) w).
Proof.
  intros Hps Hc Hd. unfold step. rewrite Hps, nth_error_last, Hc, Hd, adjust_last.
  simpl fire. unfold reportUncaught, runCallback.
  rewrite createPortStream_spec. simpl.
  rewrite length_app, Nat.add_1_r, <- app_assoc. reflexivity.
Qed.

Lemma step_port_off (w : World) (q : PortRef) (msg : Message) :
  (forall s, nth_error (ports w) q = Some s -> connected s = false) ->
  step (PortMessage q msg) w = w /\ step (PortDisconnect q) w = w.
Proof.
  intros H. unfold step. destruct (nth_error (ports w) q) as [s|]; [|tauto].
  rewrite (H s eq_refl). tauto.
Qed.

Lemma step_tick_ring (w : World) (p : PortRef) (s : PortStream) (t1 : Z) :
  _portStream (this w) = Some p ->
  nth_error (ports w) p = Some s ->
  connected s = true ->
  intervals w = [statusInterval t1] ->
  (t1 <= now w + 1)%Z ->
  step Tick w
  = sent p (appStatusUpdate (nextId w) (visible w))
      (setUuids (S (uuids w))
         (setIntervals [statusInterval (t1 + APP_STATUS_UPDATE_INTERVAL)]
            (setNow (now w + 1) w))).
Proof.
  intros Hp Hs Hc Hi Hdue. unfold step. rewrite Hi. simpl filter. simpl List.map.
  unfold reschedule. simpl due.
  destruct (Z.leb_spec t1 (now w + 1)); [|lia].
  simpl fire. unfold reportUncaught, runCallback.
  erewrite (sendAppStatus_connected _ p s) by (simpl; assumption).
  reflexivity.
Qed.

Lemma step_tick_quiet (w : World) (t1 : Z) :
  intervals w = [statusInterval t1] ->
  (now w + 1 < t1)%Z ->
  step Tick w = setIntervals [statusInterval t1] (setNow (now w + 1) w).
Proof.
  intros Hi Hdue. unfold step. rewrite Hi. simpl filter. simpl List.map.
  unfold reschedule. simpl due.
  destruct (Z.leb_spec t1 (now w + 1)); [lia|]. reflexivity.
Qed.

(** ** The life of a client *)

Lemma Running_core (t0 : Z) (w w' : World) :
  Running t0 w ->
  this w' = this w -> ports w' = ports w -> intervals w' = intervals w ->
  now w' = now w ->
  Running t0 w'.
Proof.
  intros (d & older & cur & t1 & H) Ht Hp Hi Hn.
  exists d, older, cur, t1. rewrite Ht, Hp, Hi, Hn. exact H.
Qed.

Lemma mod_next_period (a : Z) :
  (a mod APP_STATUS_UPDATE_INTERVAL = 0)%Z ->
  ((a + APP_STATUS_UPDATE_INTERVAL) mod APP_STATUS_UPDATE_INTERVAL = 0)%Z.
Proof.
  intros H. replace (a + APP_STATUS_UPDATE_INTERVAL)%Z
    with (a + 1 * APP_STATUS_UPDATE_INTERVAL)%Z by ring.
  rewrite Z_mod_plus_full. exact H.
Qed.

Lemma running_step (t0 : Z) (ev : Event) (w : World) :
  Running t0 w -> Running t0 (step ev w).
Proof.
  intros HR. pose proof HR as (d & older & cur & t1 & Ht & Hp & Hc & Hm & Hd
                               & Hold & Hi & Hdue & Hmod).
  destruct ev as [q msg|q| |state|d'|op].
  - (* a message arrives *)
    destruct (nth_error (ports w) q) as [s|] eqn:Hq;
      [destruct (connected s) eqn:Hs|].
    + rewrite Hp in Hq. destruct (connected_is_last _ _ _ _ Hold Hq Hs) as [-> ->].
      rewrite (step_message_current w older cur msg Hp Hc Hm).
      destruct (reportUncaught_handle msg
                  (setPorts (older ++ [Port.receive msg cur]) w))
        as (E1 & E2 & E3 & E4 & _).
      exists d, older, (Port.receive msg cur), t1.
      rewrite E1, E2, E3, E4. simpl. repeat split; try assumption; tauto.
    + destruct (step_port_off w q msg) as [-> _]; [|exact HR].
      intros s' Hs'. congruence.
    + destruct (step_port_off w q msg) as [-> _]; [|exact HR].
      intros s' Hs'. congruence.
  - (* a port disconnects *)
    destruct (nth_error (ports w) q) as [s|] eqn:Hq;
      [destruct (connected s) eqn:Hs|].
    + rewrite Hp in Hq. destruct (connected_is_last _ _ _ _ Hold Hq Hs) as [-> ->].
      rewrite (step_disconnect_current w older cur Hp Hc Hd).
      exists d, (older ++ [Port.drop cur])%list, subscribedPort, t1.
      simpl. rewrite Ht. simpl. rewrite length_app, Nat.add_1_r, <- app_assoc.
      repeat split; try assumption; try tauto.
      apply Forall_app. split; [assumption|]. constructor; [reflexivity|constructor].
    + destruct (step_port_off w q {| id := EmptyString; payload := [] |}) as [_ ->];
        [|exact HR].
      intros s' Hs'. congruence.
    + destruct (step_port_off w q {| id := EmptyString; payload := [] |}) as [_ ->];
        [|exact HR].
      intros s' Hs'. congruence.
  - (* a millisecond passes *)
    destruct (Z_le_gt_dec t1 (now w + 1)) as [Hring|Hquiet].
    + rewrite (step_tick_ring w (List.length older) cur t1);
        try assumption.
      * exists d, older, (Port.post (appStatusUpdate (nextId w) (visible w)) cur),
          (t1 + APP_STATUS_UPDATE_INTERVAL)%Z.
        unfold sent. simpl. rewrite Hp, adjust_last.
        repeat split; try assumption; try tauto.
        -- unfold APP_STATUS_UPDATE_INTERVAL in *. lia.
        -- unfold APP_STATUS_UPDATE_INTERVAL in *. lia.
        -- replace (t1 + APP_STATUS_UPDATE_INTERVAL - t0)%Z
             with ((t1 - t0) + APP_STATUS_UPDATE_INTERVAL)%Z by ring.
           apply mod_next_period. exact Hmod.
      * rewrite Ht. reflexivity.
      * rewrite Hp. apply nth_error_last.
    + rewrite (step_tick_quiet w t1) by (assumption || lia).
      exists d, older, cur, t1. simpl.
      repeat split; try assumption; try tauto; lia.
  - (* the document is shown or hidden *)
    apply (Running_core t0 w); [exact HR | reflexivity..].
  - (* init, again *)
    simpl. rewrite init_initialized; [exact HR|]. rewrite Ht. reflexivity.
  - (* a request method is called *)
    simpl.
    destruct (call_connected op w (List.length older) cur)
      as (msg & r & Hcall & _); [rewrite Ht; reflexivity
                                | rewrite Hp; apply nth_error_last
                                | assumption |].
    rewrite Hcall. simpl fst.
    exists d, older, (Port.post msg cur), t1.
    unfold sent. simpl. rewrite Hp, adjust_last.
    repeat split; try assumption; tauto.
Qed.

Lemma idle_step (ev : Event) (w : World) :
  Idle w -> Idle (step ev w) \/ Running (now w) (step ev w).
Proof.
  intros (Ht & Hp & Hi).
  destruct ev as [q msg|q| |state|d|op].
  - left. destruct (step_port_off w q msg) as [-> _]; [|repeat split; assumption].
    rewrite Hp. intros s Hs. destruct q; discriminate Hs.
  - left. destruct (step_port_off w q {| id := EmptyString; payload := [] |}) as [_ ->];
      [|repeat split; assumption].
    rewrite Hp. intros s Hs. destruct q; discriminate Hs.
  - left. unfold step. rewrite Hi. simpl. repeat split; assumption.
  - left. simpl. repeat split; assumption.
  - right. simpl.
    destruct (init_uninitialized d w) as (P & HP); [rewrite Ht; reflexivity|].
    rewrite HP. simpl fst. rewrite Hp, Hi. simpl.
    eexists d, [], _, _. simpl. repeat split; try reflexivity.
    + constructor.
    + unfold APP_STATUS_UPDATE_INTERVAL. lia.
    + replace (now w + APP_STATUS_UPDATE_INTERVAL - now w)%Z
        with (0 + 1 * APP_STATUS_UPDATE_INTERVAL)%Z by ring.
      rewrite Z_mod_plus_full. reflexivity.
  - left. simpl.
    destruct (call_disconnected op w) as (r & Hr & _).
    + unfold portConnected, currentPort. rewrite Ht. reflexivity.
    + rewrite Hr. simpl. repeat split; assumption.
Qed.

Lemma running_run (t0 : Z) (evs : list Event) (w : World) :
  Running t0 w -> Running t0 (run evs w).
Proof.
  revert w. induction evs as [|ev evs IH]; intros w HR; [exact HR|].
  simpl. apply IH. apply running_step. exact HR.
Qed.

Lemma idle_run (evs : list Event) (w : World) :
  Idle w -> Idle (run evs w) \/ exists t0, Running t0 (run evs w).
Proof.
  revert w. induction evs as [|ev evs IH]; intros w HI; [left; exact HI|].
  simpl. destruct (idle_step ev w HI) as [H|H].
  - apply IH. exact H.
  - right. exists (now w). apply running_run. exact H.
Qed.

Lemma blank_idle (visibility : string) (t : Z) : Idle (blank visibility t).
Proof. repeat split. Qed.

(** ** [init], once *)

(** A message that the client is initialised for is never answered with the
    error of the guard. *)
Lemma handleIncomingMessage_initialized (msg : Message) (w : World)
    (d : AppDispatch) :
  _initialized (this w) = true ->
  _dispatch (this w) = Some d ->
  snd (handleIncomingMessage msg w)
  <> Throw (Error "BackgroundClient is not initialized to handle incoming messages").
Proof.
  intros Hi Hd. unfold handleIncomingMessage, bind, gets. simpl.
  rewrite Hi, Hd.
  destruct (isPermissionRequests (payload msg)); [discriminate|].
  destruct (isGetTransactionRequestsResponse (payload msg)); [discriminate|].
  destruct (isUpdateActiveOrigin (payload msg)); [discriminate|].
  destruct (isLoadedFeaturesPayload (payload msg)); [discriminate|].
  destruct (isSetNetworkPayload (payload msg)); [discriminate|].
  destruct (isMethodPayload (payload msg) "entitiesUpdated"); [|discriminate].
  unfold liftR, JS.prop.
  destruct (JS.lookup "args" (payload msg)) as [| |b|n|x|l|o]; simpl;
    try discriminate;
    destruct (entitiesToClientQueryKeys _); discriminate.
Qed.

(** C9, as the code has it. [init] on an initialised instance throws and
    changes nothing: no port stream is made, no interval registered.
    Whatever a first call of [init] did, a second call is such a call.
    [handleIncomingMessage] throws, and changes nothing, on an instance
    whose flag or dispatch function [init] has not set. No message is ever
    delivered to such an instance: in any world a client can get into, a
    port stream that can deliver belongs to a client whose flag and dispatch
    function are set, and the message is handled without that error, also
    while the promise [init] returned is still pending. *)
Theorem init_at_most_once :
  (forall d w,
      _initialized (this w) = true ->
      init d w = (w, Throw (Error "[BackgroundClient] already initialized")))
  /\ (forall d d' w,
         init d' (fst (init d w))
         = (fst (init d w), Throw (Error "[BackgroundClient] already initialized")))
  /\ (forall msg w,
         _initialized (this w) = false \/ _dispatch (this w) = None ->
         handleIncomingMessage msg w
         = (w, Throw (Error
                 "BackgroundClient is not initialized to handle incoming messages")))
  /\ (forall evs visibility t p s msg,
         let w := run evs (blank visibility t) in
         nth_error (ports w) p = Some s ->
         connected s = true ->
         _initialized (this w) = true
         /\ (exists d, _dispatch (this w) = Some d)
         /\ step (PortMessage p msg) w
            = reportUncaught (handleIncomingMessage msg)
                (setPorts (Port.adjust p (Port.receive msg) (ports w)) w)
         /\ snd (handleIncomingMessage msg
                   (setPorts (Port.adjust p (Port.receive msg) (ports w)) w))
            <> Throw (Error
                 "BackgroundClient is not initialized to handle incoming messages")).
Proof.
  split; [exact init_initialized|]. split; [|split].
  - intros d d' w. apply init_initialized.
    destruct (_initialized (this w)) eqn:Hi.
    + rewrite (init_initialized d w Hi). exact Hi.
    + destruct (init_uninitialized d w Hi) as (P & ->). reflexivity.
  - exact handleIncomingMessage_uninitialized.
  - intros evs visibility t p s msg w Hq Hs.
    destruct (idle_run evs _ (blank_idle visibility t)) as [HI|[t0 HR]];
      fold w in HI || fold w in HR.
    + destruct HI as (_ & Hp & _). rewrite Hp in Hq. destruct p; discriminate Hq.
    + destruct HR as (d & older & cur & t1 & Ht & Hp & Hc & Hm & Hd & Hold & _).
      pose proof Hq as Hq'. rewrite Hp in Hq'.
      destruct (connected_is_last _ _ _ _ Hold Hq' Hs) as [-> ->].
      split; [rewrite Ht; reflexivity|].
      split; [exists d; rewrite Ht; reflexivity|].
      split.
      * rewrite (step_message_current w older cur msg Hp Hc Hm).
        rewrite Hp, adjust_last. reflexivity.
      * apply (handleIncomingMessage_initialized msg _ d);
          simpl; rewrite Ht; reflexivity.
Qed.

(** ** Broadcasts the client does not know *)

(** C8. In any world a client can get into, a message whose payload none
    of the guards of [handleIncomingMessage] accepts leaves the redux
    store, the feature flags and the query cache as they were, and no
    exception escapes its handling. *)
Theorem unrecognized_broadcast_ignored (evs : list Event) (visibility : string)
    (t : Z) (p : PortRef) (msg : Message) :
  recognized (payload msg) = false ->
  let w := run evs (blank visibility t) in
  let w' := step (PortMessage p msg) w in
  localState w' = localState w /\ uncaught w' = uncaught w /\ this w' = this w.
Proof.
  intros Hr w w'. subst w'.
  destruct (idle_run evs _ (blank_idle visibility t)) as [HI|[t0 HR]];
    fold w in HI || fold w in HR.
  - destruct HI as (_ & Hp & _).
    destruct (step_port_off w p msg) as [-> _]; [|repeat split].
    rewrite Hp. intros s Hs. destruct p; discriminate Hs.
  - destruct HR as (d & older & cur & t1 & Ht & Hp & Hc & Hm & Hd & Hold & _).
    destruct (nth_error (ports w) p) as [s|] eqn:Hq;
      [destruct (connected s) eqn:Hs|].
    + rewrite Hp in Hq. destruct (connected_is_last _ _ _ _ Hold Hq Hs) as [-> ->].
      rewrite (step_message_current w older cur msg Hp Hc Hm).
      unfold reportUncaught.
      rewrite (handleIncomingMessage_unrecognized msg _ d);
        [repeat split | simpl; rewrite Ht; reflexivity
         | simpl; rewrite Ht; reflexivity | exact Hr].
    + destruct (step_port_off w p msg) as [-> _]; [|repeat split].
      intros s' Hs'. congruence.
    + destruct (step_port_off w p msg) as [-> _]; [|repeat split].
      intros s' Hs'. congruence.
Qed.

(** ** Disconnection *)

Lemma promise_reads_inbox (op : Operation) (wc : World) (P : Promise Value) :
  snd (call op wc) = Ok (Awaitable P) ->
  forall wa wb,
    (forall q i n, Port.inbox q i n wa = Port.inbox q i n wb) ->
    P wa = P wb.
Proof.
  intros HP wa wb Hsame. destruct (portConnected wc) eqn:Hc.
  - destruct (currentPort_connected wc Hc) as (p & s & Hp & Hs & Hcs).
    destruct (call_connected op wc p s Hp Hs Hcs) as (msg & r & Hcall & _ & Hr).
    rewrite Hcall in HP. simpl in HP. injection HP as ->.
    destruct (awaitsResponse op); [|discriminate Hr].
    destruct Hr as (P0 & f & HP0 & Hsettle). injection HP0 as ->.
    rewrite !Hsettle, Hsame. reflexivity.
  - destruct (call_disconnected op wc Hc) as (r & Hcall & Hr).
    rewrite Hcall in HP. simpl in HP. subst r.
    destruct Hr as [Hr|(P0 & HP0 & Hrej)]; [discriminate Hr|].
    injection HP0 as ->. rewrite !Hrej. reflexivity.
Qed.

Lemma inbox_disconnect (older : list PortStream) (cur : PortStream)
    (w w' : World) (q : PortRef) (i : string) (n : nat) :
  ports w = (older ++ [cur])%list ->
  ports w' = (older ++ [Port.drop cur; subscribedPort])%list ->
  Port.inbox q i n w' = Port.inbox q i n w.
Proof.
  intros Hp Hp'. unfold Port.inbox. rewrite Hp, Hp'.
  destruct (Nat.lt_ge_cases q (List.length older)) as [Hlt|Hge].
  - rewrite !nth_error_app1 by exact Hlt. reflexivity.
  - rewrite !nth_error_app2 by exact Hge.
    destruct (q - List.length older) as [|[|k]]; simpl.
    + reflexivity.
    + rewrite skipn_nil. reflexivity.
    + destruct k; reflexivity.
Qed.

(** C3. In any world a client can get into, when a connected port stream
    disconnects it is the one the client holds, and the client makes a new
    one at once: connected, with its message and disconnect handlers
    subscribed, and with nothing sent on it. Nothing is sent anywhere by
    the reconnection (no request is replayed) and no message is created;
    the promise of every call made earlier is as it was. *)
Theorem disconnect_reconnects (evs : list Event) (visibility : string) (t : Z)
    (p : PortRef) (s : PortStream) :
  let w := run evs (blank visibility t) in
  nth_error (ports w) p = Some s ->
  connected s = true ->
  let w' := step (PortDisconnect p) w in
  _portStream (this w) = Some p
  /\ ports w' = (Port.adjust p Port.drop (ports w) ++ [subscribedPort])%list
  /\ _portStream (this w') = Some (List.length (ports w))
  /\ allPosted w' = allPosted w
  /\ uuids w' = uuids w
  /\ forall op wc P, snd (call op wc) = Ok (Awaitable P) -> P w' = P w.
Proof.
  intros w Hq Hs w'. subst w'.
  destruct (idle_run evs _ (blank_idle visibility t)) as [HI|[t0 HR]];
    fold w in HI || fold w in HR.
  - destruct HI as (_ & Hp & _). rewrite Hp in Hq. destruct p; discriminate Hq.
  - destruct HR as (d & older & cur & t1 & Ht & Hp & Hc & Hm & Hd & Hold & _).
    rewrite Hp in Hq. destruct (connected_is_last _ _ _ _ Hold Hq Hs) as [-> ->].
    rewrite (step_disconnect_current w older cur Hp Hc Hd).
    simpl. rewrite Ht, Hp, adjust_last, length_app, Nat.add_1_r, <- app_assoc.
    simpl. repeat split.
    + unfold allPosted. simpl. rewrite Hp, !flat_map_app. simpl.
      rewrite !app_nil_r. reflexivity.
    + intros op wc P HP. apply (promise_reads_inbox op wc P HP).
      intros q i n. apply (inbox_disconnect older cur); [exact Hp | reflexivity].
Qed.

(** ** The status interval *)

Lemma status_interval_ms : APP_STATUS_UPDATE_INTERVAL = 20000%Z.
Proof. reflexivity. Qed.

(** Between two multiples of the period there is no third. *)
Lemma not_due_between (t0 t1 t : Z) :
  ((t1 - t0) mod APP_STATUS_UPDATE_INTERVAL = 0)%Z ->
  (t < t1 <= t + APP_STATUS_UPDATE_INTERVAL - 1)%Z ->
  ((t - t0) mod APP_STATUS_UPDATE_INTERVAL <> 0)%Z.
Proof.
  rewrite status_interval_ms. intros H1 Hb H2.
  apply Z.mod_divide in H1; [|lia]. apply Z.mod_divide in H2; [|lia].
  destruct H1 as [c1 H1], H2 as [c2 H2]. lia.
Qed.

(** C5. From [init] at time [t] on, whatever else happens, the passing of a
    millisecond makes the client send a message exactly when it brings the
    clock to [t] plus a multiple of [APP_STATUS_UPDATE_INTERVAL] (20000
    ms), and then the message is one ['keyring'] ['appStatusUpdate'] whose
    [active] is [true] exactly when the document is visible at that
    moment. It is sent by [sendAppStatus], which hands nothing back: the
    observable of the responses is dropped, so no response is awaited. *)
Theorem status_updates_are_periodic (d : AppDispatch) (visibility : string)
    (t : Z) (evs : list Event) :
  let w := run evs (step (Init d) (blank visibility t)) in
  allPosted (step Tick w)
  = (allPosted w
       ++ if ((now w + 1 - t) mod APP_STATUS_UPDATE_INTERVAL =? 0)%Z
          then [appStatusUpdate (nextId w) (visible w)]
          else [])%list
  /\ exists p s,
       currentPort w = Some (p, s)
       /\ connected s = true
       /\ sendAppStatus w
          = (sent p (appStatusUpdate (nextId w) (visible w))
               (setUuids (S (uuids w)) w),
             Ok tt).
Proof.
  intros w.
  assert (HR : Running t w).
  { apply running_run.
    destruct (idle_step (Init d) _ (blank_idle visibility t)) as [HI|HR];
      [|exact HR].
    destruct HI as (Ht & _). simpl in Ht. discriminate Ht. }
  destruct HR as (d0 & older & cur & t1 & Ht & Hp & Hc & Hm & Hd & Hold & Hi
                  & Hdue & Hmod).
  assert (Hcur : nth_error (ports w) (List.length older) = Some cur)
    by (rewrite Hp; apply nth_error_last).
  assert (Hthis : _portStream (this w) = Some (List.length older))
    by (rewrite Ht; reflexivity).
  split.
  - destruct (Z_le_gt_dec t1 (now w + 1)) as [Hring|Hquiet].
    + rewrite (step_tick_ring w (List.length older) cur t1) by assumption.
      assert (t1 = now w + 1)%Z as <- by lia.
      rewrite Hmod. simpl Z.eqb. cbv iota.
      unfold allPosted, sent. simpl ports. rewrite Hp, adjust_last.
      rewrite !flat_map_posted_last. simpl posted. apply app_assoc.
    + rewrite (step_tick_quiet w t1) by (assumption || lia).
      destruct (Z.eqb_spec ((now w + 1 - t) mod APP_STATUS_UPDATE_INTERVAL) 0)
        as [Hzero|_].
      * exfalso. apply (not_due_between t t1 (now w + 1) Hmod); [lia | exact Hzero].
      * rewrite app_nil_r. reflexivity.
  - exists (List.length older), cur. split; [|split; [exact Hc|]].
    + unfold currentPort. rewrite Hthis, Hcur. reflexivity.
    + apply (sendAppStatus_connected w _ cur); assumption.
Qed.

(* ------------------------------------------------------------------ *)
(** ** Beyond the claims: what each method returns *)
(* ------------------------------------------------------------------ *)


Lemma truthy_prop (v : Value) (k : string) :
  JS.truthy v = true -> JS.prop v k = Ok (JS.optProp v k).
Proof.
  unfold JS.optProp. destruct v; simpl; try discriminate; intros _;
    try reflexivity; destruct (String.eqb k "length"); reflexivity.
Qed.

(** X1. On a channel that is not connected every request method throws
    [ChannelNotConnected] synchronously, except [disconnectApp], which is
    [async]: it does not throw but returns a promise that is already
    rejected with [ChannelNotConnected]. *)
Theorem disconnected_throws_or_rejects (op : Operation) (w : World) :
  portConnected w = false ->
  call op w
  = (setUuids (S (uuids w)) w,
     match op with
     | DisconnectApp _ _ => Ok (Awaitable (rejected ChannelNotConnected))
     | _ => Throw ChannelNotConnected
     end).
Proof.
  intros H.
  destruct op; open_call; rewrite request_disconnected by exact H; reflexivity.
Qed.



(** X4. The projecting methods that return a part of [payload.args]
    unchecked ([signData]: [args.signature]; [fetchPendingQredoConnectRequest]:
    [args.request]; [acceptQredoConnection]: [args.accounts];
    [deleteAccountSourceByType]: [args.success]; [getStorageMigrationStatus]:
    [args.status]; [getQredoConnectionInfo] and [getAccountSourceEntropy]:
    [args] itself): when the first response has the expected shape, the
    promise resolves with that part. For the five that read a property:
    with the property of an object [args] ([undefined] if it has none); it
    is rejected with the [TypeError] 'Cannot read properties of undefined'
    when [args] is [undefined] and 'Cannot read properties of null' when it
    is [null]; on any other [args] it resolves with [undefined]. *)
Theorem right_shape_resolves (op : Operation) (shape : Obj -> bool)
    (property : option string) (w : World) (p : PortRef) (s : PortStream) :
  projectedProperty op = Some property ->
  expectedShape op = Some shape ->
  _portStream (this w) = Some p ->
  nth_error (ports w) p = Some s ->
  connected s = true ->
  exists msg P,
    call op w = (sent p msg (setUuids (S (uuids w)) w), Ok (Awaitable P))
    /\ id msg = nextId w
    /\ forall w' response rest,
         Port.inbox p (id msg) (List.length (received s)) w' = response :: rest ->
         shape (payload response) = true ->
         P w' = match property, JS.lookup "args" (payload response) with
                | None, args => Resolved args
                | Some k, VObj args => Resolved (JS.lookup k args)
                | Some k, VUndefined =>
                    Rejected (TypeError ("Cannot read properties of undefined (reading '"
                                           ++ k ++ "')"))
                | Some k, VNull =>
                    Rejected (TypeError ("Cannot read properties of null (reading '"
                                           ++ k ++ "')"))
                | Some k, _ => Resolved VUndefined
                end.
Proof.
  intros Hk Hshape Hp Hs Hc.
  destruct op; simpl in Hk; try discriminate Hk; injection Hk as <-;
    simpl in Hshape; injection Hshape as <-.
  all: open_call; rewrite (request_connected w p s) by assumption.
  all: eexists; eexists; split; [reflexivity | split; [reflexivity|]].
  all: intros w' response rest Hin Hgood; simpl id in Hin.
  all: rewrite responses_take1_map, Hin; unfold settledBy.
  all: rewrite Hgood; simpl.
  all: try reflexivity.
  all: destruct (JS.lookup "args" (payload response)); reflexivity.
Qed.

(** X5. [getStoredEntities(type)] never hands back entities of another
    type: when the first response is a storedEntitiesResponse with
    arguments [args], the promise resolves with [args.entities] if
    [args.type] is the requested type, and is otherwise rejected with
    ['unexpected entity type response <args.type>']. *)
Theorem getStoredEntities_checked (type : UIAccessibleEntityType) (w : World)
    (p : PortRef) (s : PortStream) :
  _portStream (this w) = Some p ->
  nth_error (ports w) p = Some s ->
  connected s = true ->
  exists msg P,
    getStoredEntities type w = (sent p msg (setUuids (S (uuids w)) w), Ok P)
    /\ id msg = nextId w
    /\ forall w' response rest args,
         Port.inbox p (id msg) (List.length (received s)) w' = response :: rest ->
         isMethodPayload (payload response) "storedEntitiesResponse" = true ->
         JS.lookup "args" (payload response) = VObj args ->
         P w' = if JS.strictEqStr (entityTypeName type) (JS.lookup "type" args)
                then Resolved (JS.lookup "entities" args)
                else Rejected (Error ("unexpected entity type response "
                                        ++ toString (JS.lookup "type" args))).
Proof.
  intros Hp Hs Hc. unfold getStoredEntities.
  rewrite (request_connected w p s) by assumption.
  eexists; eexists; split; [reflexivity | split; [reflexivity|]].
  intros w' response rest args Hin Hgood Hargs. simpl id in Hin.
  rewrite responses_take1_map, Hin. unfold settledBy.
  rewrite Hgood, Hargs. simpl. unfold JS.strictNeStr.
  destruct (JS.strictEqStr (entityTypeName type) (JS.lookup "type" args));
    reflexivity.
Qed.

(** X6. [createMnemonicAccountSource] only hands back a mnemonic source:
    when the first response is an accountSourceCreationResponse whose
    [args.accountSource] is an object, the promise resolves with that
    object if its [type] is ['mnemonic'], and is otherwise rejected with
    ['Unexpected account source type response <type>']. *)
Theorem createMnemonicAccountSource_checked (inputs : MnemonicInputs)
    (w : World) (p : PortRef) (s : PortStream) :
  _portStream (this w) = Some p ->
  nth_error (ports w) p = Some s ->
  connected s = true ->
  exists msg P,
    createMnemonicAccountSource inputs w
    = (sent p msg (setUuids (S (uuids w)) w), Ok P)
    /\ id msg = nextId w
    /\ forall w' response rest args source,
         Port.inbox p (id msg) (List.length (received s)) w' = response :: rest ->
         isMethodPayload (payload response) "accountSourceCreationResponse" = true ->
         JS.lookup "args" (payload response) = VObj args ->
         JS.lookup "accountSource" args = VObj source ->
         P w' = if JS.strictEqStr "mnemonic" (JS.lookup "type" source)
                then Resolved (VObj source)
                else Rejected (Error ("Unexpected account source type response "
                                        ++ toString (JS.lookup "type" source))).
Proof.
  intros Hp Hs Hc. unfold createMnemonicAccountSource.
  rewrite (request_connected w p s) by assumption.
  eexists; eexists; split; [reflexivity | split; [reflexivity|]].
  intros w' response rest args source Hin Hgood Hargs Hsource. simpl id in Hin.
  rewrite responses_take1_map, Hin. unfold settledBy.
  rewrite Hgood, Hargs. simpl. rewrite Hsource. simpl. unfold JS.strictNeStr.
  destruct (JS.strictEqStr "mnemonic" (JS.lookup "type" source)); reflexivity.
Qed.

(** X7. [deriveNextAccount] needs a value to read the address from: the
    first response resolves the promise with [return.accountAddress] when
    it is a deriveNextAccount-shaped keyring payload with a truthy [return],
    and rejects it with the method's 'unknown response' error otherwise,
    also when the shape is right and [return] is missing. The read of
    [accountAddress] never throws. *)
Theorem deriveNextAccount_settles (w : World) (p : PortRef) (s : PortStream) :
  _portStream (this w) = Some p ->
  nth_error (ports w) p = Some s ->
  connected s = true ->
  exists msg P,
    deriveNextAccount w = (sent p msg (setUuids (S (uuids w)) w), Ok P)
    /\ id msg = nextId w
    /\ forall w',
         P w' = match Port.inbox p (id msg) (List.length (received s)) w' with
                | [] => Pending
                | response :: _ =>
                    if isKeyringPayload (payload response) "deriveNextAccount"
                       && JS.truthy (JS.lookup "return" (payload response))
                    then Resolved (JS.optProp (JS.lookup "return" (payload response))
                                     "accountAddress")
                    else Rejected
                           (Error "Error unknown response for derive account message")
                end.
Proof.
  intros Hp Hs Hc. unfold deriveNextAccount.
  rewrite (request_connected w p s) by assumption.
  eexists; eexists; split; [reflexivity | split; [reflexivity|]].
  intros w'. rewrite responses_take1_map. simpl.
  destruct (Port.inbox p (nextId w) (List.length (received s)) w') as [|m rest];
    [reflexivity|].
  unfold settledBy.
  destruct (isKeyringPayload (payload m) "deriveNextAccount"); simpl;
    [|reflexivity].
  destruct (JS.truthy (JS.lookup "return" (payload m))) eqn:Ht; [|reflexivity].
  rewrite (truthy_prop _ _ Ht). reflexivity.
Qed.

(** X8. [exportAccount] likewise: the first response resolves the promise
    with [return.keyPair] when it is an exportAccount-shaped keyring payload
    with a truthy [return], and rejects it with the method's 'unknown
    response' error otherwise. *)
Theorem exportAccount_settles (password accountAddress : string) (w : World)
    (p : PortRef) (s : PortStream) :
  _portStream (this w) = Some p ->
  nth_error (ports w) p = Some s ->
  connected s = true ->
  exists msg P,
    exportAccount password accountAddress w
    = (sent p msg (setUuids (S (uuids w)) w), Ok P)
    /\ id msg = nextId w
    /\ JS.lookup "args" (payload msg)
       = VObj [("password", VStr password); ("accountAddress", VStr accountAddress)]
    /\ forall w',
         P w' = match Port.inbox p (id msg) (List.length (received s)) w' with
                | [] => Pending
                | response :: _ =>
                    if isKeyringPayload (payload response) "exportAccount"
                       && JS.truthy (JS.lookup "return" (payload response))
                    then Resolved (JS.optProp (JS.lookup "return" (payload response))
                                     "keyPair")
                    else Rejected
                           (Error "Error unknown response for export account message")
                end.
Proof.
  intros Hp Hs Hc. unfold exportAccount.
  rewrite (request_connected w p s) by assumption.
  eexists; eexists; split; [reflexivity | split; [reflexivity|]].
  split; [reflexivity|].
  intros w'. rewrite responses_take1_map. simpl.
  destruct (Port.inbox p (nextId w) (List.length (received s)) w') as [|m rest];
    [reflexivity|].
  unfold settledBy.
  destruct (isKeyringPayload (payload m) "exportAccount"); simpl;
    [|reflexivity].
  destruct (JS.truthy (JS.lookup "return" (payload m))) eqn:Ht; [|reflexivity].
  rewrite (truthy_prop _ _ Ht). reflexivity.
Qed.

(* ------------------------------------------------------------------ *)
(** ** Beyond the claims: [init] *)
(* ------------------------------------------------------------------ *)

(** X9. [init] on a client that is not initialised always succeeds, and
    does this and no more: it sets the flag and the dispatch function,
    makes one port stream and subscribes the two handlers to it, sends the
    status at once and then the four requests (permission requests,
    transaction requests, features, network) in that order, and registers
    one interval that first comes due one period from now. *)
Theorem init_effects (d : AppDispatch) (w : World) :
  _initialized (this w) = false ->
  exists P, init d w
  = ({| this := {| _portStream := Some (List.length (ports w));
                   _dispatch := Some d; _initialized := true |};
        ports :=
          ports w ++
          [{| channelName := "sui_ui<->background"; connected := true;
              posted :=
                [appStatusUpdate (nextId w) (visible w);
                 {| id := initRequestId (uuids w) 1;
                    payload := [("type", VStr "get-permission-requests")] |};
                 {| id := initRequestId (uuids w) 2;
                    payload := [("type", VStr "get-transaction-requests")] |};
                 {| id := initRequestId (uuids w) 3;
                    payload := [("type", VStr "get-features")] |};
                 {| id := initRequestId (uuids w) 4;
                    payload := [("type", VStr "get-network")] |}];
              received := [];
              onMessage := [CbHandleIncomingMessage];
              onDisconnect := [CbCreatePortStream] |}];
        intervals :=
          intervals w ++ [statusInterval (now w + APP_STATUS_UPDATE_INTERVAL)];
        now := now w;
        visibilityState := visibilityState w;
        uuids := 5 + uuids w;
        dispatched := dispatched w;
        growthbookAttributes := growthbookAttributes w;
        growthbookFeatures := growthbookFeatures w;
        invalidatedQueries := invalidatedQueries w;
        uncaught := uncaught w |}, Ok P).
Proof. exact (init_uninitialized d w). Qed.



(* ------------------------------------------------------------------ *)
(** ** Beyond the claims: the client over time *)
(* ------------------------------------------------------------------ *)

(** X11. Whatever happens to a client (calls, messages, disconnections,
    time, a second [init]), either [init] has not been called, and then
    there is no port stream and no interval, or the client holds exactly one
    connected port stream, the last one made, with each handler subscribed
    to it once, every older stream is disconnected, and the status interval
    is registered exactly once: reconnections pile up neither handlers nor
    intervals. *)
Theorem client_invariant (evs : list Event) (visibility : string) (t : Z) :
  let w := run evs (blank visibility t) in
  Idle w \/ exists t0, Running t0 w.
Proof. intros w. apply idle_run. apply blank_idle. Qed.

Lemma handleIncomingMessage_dispatches_once (msg : Message) (w : World) :
  let w' := fst (handleIncomingMessage msg w) in
  dispatched w' = dispatched w
  \/ exists d a, dispatched w' = (dispatched w ++ [(d, a)])%list.
Proof.
  unfold handleIncomingMessage, bind, gets. simpl.
  destruct (_initialized (this w)); [|left; reflexivity].
  destruct (_dispatch (this w)) as [d|]; [|left; reflexivity].
  destruct (isPermissionRequests (payload msg));
    [right; eexists; eexists; reflexivity|].
  destruct (isGetTransactionRequestsResponse (payload msg));
    [right; eexists; eexists; reflexivity|].
  destruct (isUpdateActiveOrigin (payload msg));
    [right; eexists; eexists; reflexivity|].
  destruct (isLoadedFeaturesPayload (payload msg)); [left; reflexivity|].
  destruct (isSetNetworkPayload (payload msg));
    [right; eexists; eexists; reflexivity|].
  destruct (isMethodPayload (payload msg) "entitiesUpdated"); [|left; reflexivity].
  unfold liftR.
  destruct (JS.prop (JS.lookup "args" (payload msg)) "type") as [entityType|];
    [|left; reflexivity].
  destruct (entitiesToClientQueryKeys entityType); left; reflexivity.
Qed.

(** X12. The client never answers an incoming message: in any world a
    client can get into, the delivery of a message, whatever it is, sends
    nothing, creates no message id, and leaves the client's fields, the
    intervals and the clock as they were; it dispatches at most one redux
    action. *)
Theorem incoming_message_sends_nothing (evs : list Event) (visibility : string)
    (t : Z) (p : PortRef) (msg : Message) :
  let w := run evs (blank visibility t) in
  let w' := step (PortMessage p msg) w in
  allPosted w' = allPosted w
  /\ uuids w' = uuids w
  /\ this w' = this w
  /\ intervals w' = intervals w
  /\ (dispatched w' = dispatched w
      \/ exists d a, dispatched w' = (dispatched w ++ [(d, a)])%list).
Proof.
  intros w w'. subst w'.
  destruct (nth_error (ports w) p) as [s|] eqn:Hq;
    [destruct (connected s) eqn:Hs|].
  2,3: destruct (step_port_off w p msg) as [-> _];
       [intros s' Hs'; congruence | repeat split; left; reflexivity].
  destruct (idle_run evs _ (blank_idle visibility t)) as [HI|[t0 HR]];
    fold w in HI || fold w in HR.
  - destruct HI as (_ & Hp & _). rewrite Hp in Hq. destruct p; discriminate Hq.
  - destruct HR as (d & older & cur & t1 & Ht & Hp & Hc & Hm & Hd & Hold & _).
    rewrite Hp in Hq. destruct (connected_is_last _ _ _ _ Hold Hq Hs) as [-> ->].
    rewrite (step_message_current w older cur msg Hp Hc Hm).
    set (w1 := setPorts (older ++ [Port.receive msg cur]) w).
    destruct (reportUncaught_handle msg w1) as (E1 & E2 & E3 & _ & E5 & _).
    pose proof (handleIncomingMessage_dispatches_once msg w1) as Hdis.
    assert (Hsame : dispatched (reportUncaught (handleIncomingMessage msg) w1)
                    = dispatched (fst (handleIncomingMessage msg w1))).
    { unfold reportUncaught.
      destruct (handleIncomingMessage msg w1) as [w2 [[]|e]]; reflexivity. }
    unfold allPosted. rewrite E2, E1, E3, E5, Hsame. subst w1. simpl.
    rewrite Hp, !flat_map_posted_last. simpl. repeat split. exact Hdis.
Qed.

(** X13. An entitiesUpdated broadcast looks its entity type up in
    [entitiesToClientQueryKeys] and does nothing else: it invalidates the
    accounts key for ['accounts'] and the account sources key for
    ['accountSources']; for a type that names a property of
    [Object.prototype] (['constructor'], ['toString'], ['__proto__'], ...)
    the lookup finds that inherited property, which is truthy, and
    [invalidateQueries] is called with it; a type that is none of these is
    ignored. In no case is there an error or a redux action. *)
Theorem entities_updated_invalidates (msg : Message) (w : World)
    (d : AppDispatch) (args : Obj) (entityType : string) :
  _initialized (this w) = true ->
  _dispatch (this w) = Some d ->
  isPermissionRequests (payload msg) = false ->
  isGetTransactionRequestsResponse (payload msg) = false ->
  isUpdateActiveOrigin (payload msg) = false ->
  isLoadedFeaturesPayload (payload msg) = false ->
  isSetNetworkPayload (payload msg) = false ->
  isMethodPayload (payload msg) "entitiesUpdated" = true ->
  JS.lookup "args" (payload msg) = VObj args ->
  JS.lookup "type" args = VStr entityType ->
  handleIncomingMessage msg w
  = (if String.eqb entityType "accounts"
     then setInvalidatedQueries
            (invalidatedQueries w ++ [ByKey accountsQueryKey]) w
     else if String.eqb entityType "accountSources"
     then setInvalidatedQueries
            (invalidatedQueries w ++ [ByKey accountSourcesQueryKey]) w
     else if existsb (String.eqb entityType)
               ["constructor"; "__defineGetter__"; "__defineSetter__";
                "hasOwnProperty"; "__lookupGetter__"; "__lookupSetter__";
                "isPrototypeOf"; "propertyIsEnumerable"; "toString";
                "valueOf"; "__proto__"; "toLocaleString"]
     then setInvalidatedQueries
            (invalidatedQueries w ++ [ByInherited entityType]) w
     else w,
     Ok tt).
Proof.
  intros Hi Hd H1 H2 H3 H4 H5 H6 Hargs Htype.
  change ["constructor"; "__defineGetter__"; "__defineSetter__";
          "hasOwnProperty"; "__lookupGetter__"; "__lookupSetter__";
          "isPrototypeOf"; "propertyIsEnumerable"; "toString";
          "valueOf"; "__proto__"; "toLocaleString"] with objectPrototypeKeys.
  remember (existsb (String.eqb entityType) objectPrototypeKeys) as inherited
    eqn:Hin.
  unfold handleIncomingMessage, bind, gets. simpl.
  rewrite Hi, Hd, H1, H2, H3, H4, H5, H6, Hargs. unfold liftR. simpl.
  rewrite Htype. unfold entitiesToClientQueryKeys. cbv zeta.
  change (toString (VStr entityType)) with entityType.
  rewrite <- Hin.
  destruct (String.eqb entityType "accounts"); [reflexivity|].
  destruct (String.eqb entityType "accountSources"); [reflexivity|].
  destruct inherited; reflexivity.
Qed.

(** X14. The handlers the client registers with the host never fail: in
    any world a client can get into, neither the passing of time (the
    status interval) nor a disconnection (the reconnect handler) leaves an
    uncaught exception, because the port stream the status goes out on is
    always connected. *)
Theorem timer_and_reconnect_never_throw (evs : list Event) (visibility : string)
    (t : Z) (p : PortRef) :
  let w := run evs (blank visibility t) in
  uncaught (step Tick w) = uncaught w
  /\ uncaught (step (PortDisconnect p) w) = uncaught w.
Proof.
  intros w.
  destruct (idle_run evs _ (blank_idle visibility t)) as [HI|[t0 HR]];
    fold w in HI || fold w in HR.
  - destruct HI as (_ & Hp & Hi). split.
    + unfold step. rewrite Hi. reflexivity.
    + destruct (step_port_off w p {| id := EmptyString; payload := [] |})
        as [_ ->]; [|reflexivity].
      rewrite Hp. intros s Hs. destruct p; discriminate Hs.
  - destruct HR as (d & older & cur & t1 & Ht & Hp & Hc & Hm & Hd & Hold & Hi
                    & Hdue & _).
    split.
    + destruct (Z_le_gt_dec t1 (now w + 1)) as [Hring|Hquiet].
      * rewrite (step_tick_ring w (List.length older) cur t1);
          [reflexivity | rewrite Ht; reflexivity
           | rewrite Hp; apply nth_error_last | assumption..].
      * rewrite (step_tick_quiet w t1) by (assumption || lia). reflexivity.
    + destruct (nth_error (ports w) p) as [s|] eqn:Hq;
        [destruct (connected s) eqn:Hs|].
      * rewrite Hp in Hq.
        destruct (connected_is_last _ _ _ _ Hold Hq Hs) as [-> ->].
        rewrite (step_disconnect_current w older cur Hp Hc Hd). reflexivity.
      * destruct (step_port_off w p {| id := EmptyString; payload := [] |})
          as [_ ->]; [|reflexivity].
        intros s' Hs'. congruence.
      * destruct (step_port_off w p {| id := EmptyString; payload := [] |})
          as [_ ->]; [|reflexivity].
        intros s' Hs'. congruence.
Qed.

(* ------------------------------------------------------------------ *)
(** ** Beyond the claims: how many status updates *)
(* ------------------------------------------------------------------ *)

(** No request method sends a status update. *)
Lemma call_not_status (op : Operation) (w : World) (p : PortRef) (s : PortStream) :
  _portStream (this w) = Some p ->
  nth_error (ports w) p = Some s ->
  connected s = true ->
  exists msg r,
    call op w = (sent p msg (setUuids (S (uuids w)) w), Ok r)
    /\ isStatusUpdate msg = false.
Proof.
  intros Hp Hs Hc.
  destruct op; open_call; rewrite (request_connected w p s) by assumption;
    simpl; (eexists; eexists; split; [reflexivity | reflexivity]).
Qed.

Lemma filter_status_app (l new : list Message) :
  filter isStatusUpdate new = [] ->
  filter isStatusUpdate (l ++ new) = filter isStatusUpdate l.
Proof. intros H. rewrite filter_app, H. apply app_nil_r. Qed.

(** What one event adds to what the client has sent, and to the clock. *)
Lemma running_step_posted (t0 : Z) (ev : Event) (w : World) :
  Running t0 w ->
  exists new,
    allPosted (step ev w) = (allPosted w ++ new)%list
    /\ match ev with
       | Tick =>
           now (step ev w) = (now w + 1)%Z
           /\ new = if ((now w + 1 - t0) mod APP_STATUS_UPDATE_INTERVAL =? 0)%Z
                    then [appStatusUpdate (nextId w) (visible w)]
                    else []
       | _ => now (step ev w) = now w /\ filter isStatusUpdate new = []
       end.
Proof.
  intros HR. pose proof HR as (d & older & cur & t1 & Ht & Hp & Hc & Hm & Hd
                               & Hold & Hi & Hdue & Hmod).
  assert (Hcur : nth_error (ports w) (List.length older) = Some cur)
    by (rewrite Hp; apply nth_error_last).
  assert (Hthis : _portStream (this w) = Some (List.length older))
    by (rewrite Ht; reflexivity).
  destruct ev as [q msg|q| |state|d'|op].
  - exists []. rewrite app_nil_r.
    destruct (nth_error (ports w) q) as [s|] eqn:Hq;
      [destruct (connected s) eqn:Hs|].
    2,3: destruct (step_port_off w q msg) as [-> _];
         [intros s' Hs'; congruence | repeat split].
    rewrite Hp in Hq. destruct (connected_is_last _ _ _ _ Hold Hq Hs) as [-> ->].
    rewrite (step_message_current w older cur msg Hp Hc Hm).
    destruct (reportUncaught_handle msg
                (setPorts (older ++ [Port.receive msg cur]) w))
      as (_ & E2 & _ & E4 & _).
    unfold allPosted. rewrite E2, E4. simpl.
    rewrite Hp, !flat_map_posted_last. repeat split.
  - exists []. rewrite app_nil_r.
    destruct (nth_error (ports w) q) as [s|] eqn:Hq;
      [destruct (connected s) eqn:Hs|].
    2,3: destruct (step_port_off w q {| id := EmptyString; payload := [] |})
           as [_ ->]; [intros s' Hs'; congruence | repeat split].
    rewrite Hp in Hq. destruct (connected_is_last _ _ _ _ Hold Hq Hs) as [-> ->].
    rewrite (step_disconnect_current w older cur Hp Hc Hd).
    unfold allPosted. simpl. rewrite Hp, !flat_map_app. simpl.
    rewrite !app_nil_r. repeat split.
  - destruct (Z_le_gt_dec t1 (now w + 1)) as [Hring|Hquiet].
    + rewrite (step_tick_ring w (List.length older) cur t1) by assumption.
      assert (t1 = now w + 1)%Z as <- by lia.
      rewrite Hmod. simpl Z.eqb. cbv iota.
      eexists. split; [|split; reflexivity].
      unfold allPosted, sent. simpl ports. rewrite Hp, adjust_last.
      rewrite !flat_map_posted_last. simpl posted. apply app_assoc.
    + rewrite (step_tick_quiet w t1) by (assumption || lia).
      destruct (Z.eqb_spec ((now w + 1 - t0) mod APP_STATUS_UPDATE_INTERVAL) 0)
        as [Hzero|_].
      * exfalso. apply (not_due_between t0 t1 (now w + 1) Hmod); [lia | exact Hzero].
      * exists []. rewrite app_nil_r. repeat split.
  - exists []. rewrite app_nil_r. repeat split.
  - exists []. rewrite app_nil_r. simpl.
    rewrite init_initialized by (rewrite Ht; reflexivity). repeat split.
  - destruct (call_not_status op w (List.length older) cur Hthis Hcur Hc)
      as (msg & r & Hcall & Hmsg).
    exists [msg]. simpl step. rewrite Hcall. simpl fst. split.
    + unfold allPosted, sent. simpl ports. rewrite Hp, adjust_last.
      rewrite !flat_map_posted_last. simpl posted. apply app_assoc.
    + split; [reflexivity|]. simpl. rewrite Hmsg. reflexivity.
Qed.

Lemma next_quotient (n : Z) :
  ((n + 1) / APP_STATUS_UPDATE_INTERVAL
   = n / APP_STATUS_UPDATE_INTERVAL
     + if ((n + 1) mod APP_STATUS_UPDATE_INTERVAL =? 0) then 1 else 0)%Z.
Proof.
  rewrite status_interval_ms.
  destruct (Z.eqb_spec ((n + 1) mod 20000) 0) as [H|H];
    Z.div_mod_to_equations; lia.
Qed.

Lemma counted_step (t0 : Z) (ev : Event) (w : World) :
  Running t0 w ->
  Z.of_nat (statusCount w) = (1 + (now w - t0) / APP_STATUS_UPDATE_INTERVAL)%Z ->
  Z.of_nat (statusCount (step ev w))
  = (1 + (now (step ev w) - t0) / APP_STATUS_UPDATE_INTERVAL)%Z.
Proof.
  intros HR Hcount.
  destruct (running_step_posted t0 ev w HR) as (new & Hposted & Hev).
  unfold statusCount in *. rewrite Hposted.
  destruct ev; try (destruct Hev as [-> Hnone];
                    rewrite (filter_status_app _ _ Hnone); exact Hcount).
  destruct Hev as [-> ->].
  replace (now w + 1 - t0)%Z with ((now w - t0) + 1)%Z by ring.
  rewrite next_quotient.
  destruct ((now w - t0 + 1) mod APP_STATUS_UPDATE_INTERVAL =? 0)%Z.
  - rewrite filter_app, length_app.
    change (filter isStatusUpdate [appStatusUpdate (nextId w) (visible w)])
      with [appStatusUpdate (nextId w) (visible w)].
    change (List.length [appStatusUpdate (nextId w) (visible w)]) with 1%nat.
    rewrite Nat2Z.inj_add, Hcount. simpl Z.of_nat. ring.
  - rewrite app_nil_r, Hcount. ring.
Qed.

(** X15. The status updates a client has sent are the one [init] sends and
    one per full period elapsed since: whatever else happened in between
    (requests, incoming messages, reconnections, the document shown or
    hidden), at any time their number is 1 + (now - t) / 20000, where t is
    the time of [init]. No other method sends one. *)
Theorem status_updates_counted (d : AppDispatch) (visibility : string) (t : Z)
    (evs : list Event) :
  let w := run evs (step (Init d) (blank visibility t)) in
  Z.of_nat (statusCount w)
  = (1 + (now w - t) / APP_STATUS_UPDATE_INTERVAL)%Z.
Proof.
  intros w. subst w.
  assert (H0 : Running t (step (Init d) (blank visibility t))
               /\ Z.of_nat (statusCount (step (Init d) (blank visibility t)))
                  = (1 + (now (step (Init d) (blank visibility t)) - t)
                         / APP_STATUS_UPDATE_INTERVAL)%Z).
  { split.
    - destruct (idle_step (Init d) _ (blank_idle visibility t)) as [HI|HR];
        [|exact HR].
      destruct HI as (Ht & _). simpl in Ht. discriminate Ht.
    - unfold step.
      destruct (init_uninitialized d (blank visibility t) eq_refl) as (P & ->).
      simpl fst. unfold statusCount, allPosted. simpl.
      rewrite Z.sub_diag. reflexivity. }
  revert H0. generalize (step (Init d) (blank visibility t)).
  induction evs as [|ev evs IH]; intros w [HR Hcount]; [exact Hcount|].
  simpl. apply IH. split; [apply running_step; exact HR|].
  apply counted_step; assumption.
Qed.

(** X16. Once [init] has been called, no request method ever fails to
    send: whatever happened since (disconnections included, as the client
    reconnects at once), a call sends exactly one envelope, under the next
    fresh id, and returns without throwing. *)
Theorem calls_after_init_send (d : AppDispatch) (visibility : string) (t : Z)
    (evs : list Event) (op : Operation) :
  let w := run evs (step (Init d) (blank visibility t)) in
  exists msg r,
    snd (call op w) = Ok r
    /\ id msg = nextId w
    /\ allPosted (fst (call op w)) = (allPosted w ++ [msg])%list
    /\ uuids (fst (call op w)) = S (uuids w).
Proof.
  intros w.
  assert (HR : Running t w).
  { apply running_run.
    destruct (idle_step (Init d) _ (blank_idle visibility t)) as [HI|HR];
      [|exact HR].
    destruct HI as (Ht & _). simpl in Ht. discriminate Ht. }
  destruct HR as (d0 & older & cur & t1 & Ht & Hp & Hc & _).
  destruct (call_connected op w (List.length older) cur)
    as (msg & r & Hcall & Hid & _);
    [rewrite Ht; reflexivity | rewrite Hp; apply nth_error_last | exact Hc |].
  exists msg, r. rewrite Hcall. simpl fst. simpl snd.
  split; [reflexivity|]. split; [exact Hid|]. split; [|reflexivity].
  unfold allPosted, sent. simpl ports. rewrite Hp, adjust_last.
  rewrite !flat_map_posted_last. simpl posted. apply app_assoc.
Qed.

End Properties.

(* ================================================================== *)
(** * The client at work: runs on concrete inputs *)
(* ================================================================== *)

#[local] Existing Instance Wallet.imports.

Example getEntropy_pending : Wallet.entropyPromise Wallet.afterGetEntropy = Pending.
Proof. vm_compute. reflexivity. Qed.

Example getEntropy_resolves :
  Wallet.entropyPromise (step (PortMessage 0 (Wallet.entropyResponse "c0ffee")) Wallet.afterGetEntropy)
  = Resolved (VStr "c0ffee").
Proof. vm_compute. reflexivity. Qed.

Example getEntropy_empty_entropy :
  Wallet.entropyPromise (step (PortMessage 0 (Wallet.entropyResponse EmptyString)) Wallet.afterGetEntropy)
  = Rejected MnemonicNotFound.
Proof. vm_compute. reflexivity. Qed.

Example getEntropy_second_response_discarded :
  Wallet.entropyPromise
    (run [PortMessage 0 (Wallet.entropyResponse "c0ffee");
          PortMessage 0 (Wallet.entropyResponse "decaf");
          PortMessage 0 Wallet.signDataResponse] Wallet.afterGetEntropy)
  = Resolved (VStr "c0ffee").
Proof. vm_compute. reflexivity. Qed.

Example getEntropy_other_port_ignored :
  Wallet.entropyPromise
    (run [PortDisconnect 0; PortMessage 1 (Wallet.entropyResponse "c0ffee")]
         Wallet.afterGetEntropy)
  = Pending.
Proof. vm_compute. reflexivity. Qed.

Example createAccounts_empty_list :
  match snd (createAccounts {| accountsType := "mnemonic-derived";
                               accountsParams := [("sourceID", VStr "s1")] |}
               Wallet.started) with
  | Ok P =>
      P (step (PortMessage 0 (Wallet.accountsCreatedResponse []))
           (fst (createAccounts {| accountsType := "mnemonic-derived";
                                   accountsParams := [("sourceID", VStr "s1")] |}
                   Wallet.started)))
  | Throw e => Rejected e
  end
  = Rejected (Error "Unexpected accounts type response undefined").
Proof. vm_compute. reflexivity. Qed.

Example no_status_before_the_interval :
  List.length (allPosted (run (repeat Tick (Z.to_nat 19999)) Wallet.started)) = 5.
Proof. vm_compute. reflexivity. Qed.

Example status_at_the_interval :
  skipn 5 (allPosted (run (repeat Tick (Z.to_nat 20000)) Wallet.started))
  = [appStatusUpdate "uuid-5" true].
Proof. vm_compute. reflexivity. Qed.

Example status_of_a_hidden_document :
  skipn 5 (allPosted (run (repeat Tick (Z.to_nat 19999)
                             ++ [VisibilityChange "hidden"; Tick])
                          Wallet.started))
  = [appStatusUpdate "uuid-5" false].
Proof. vm_compute. reflexivity. Qed.

Example reconnect_after_disconnect :
  ports (step (PortDisconnect 0) Wallet.started)
  = [Port.drop Wallet.port0; subscribedPort].
Proof. vm_compute. reflexivity. Qed.

(** C1, as stated, fails for [getEntropy]: a response of another shape (a
    signDataResponse) makes its promise fail with [MnemonicNotFound], which
    is not one of the [UnexpectedResponseShape] failures. *)
Lemma getEntropy_wrong_shape_is_MnemonicNotFound :
  expectedShape (GetEntropy None) = Some (fun p => isKeyringPayload p "getEntropy")
  /\ isKeyringPayload (payload Wallet.signDataResponse) "getEntropy" = false
  /\ call (GetEntropy None) Wallet.started
     = (Wallet.afterGetEntropy, Ok (Awaitable Wallet.entropyPromise))
  /\ Wallet.entropyPromise
       (step (PortMessage 0 Wallet.signDataResponse) Wallet.afterGetEntropy)
     = Rejected (Error "Mnemonic not found")
  /\ ~ UnexpectedResponseShape (Error "Mnemonic not found").
Proof.
  split; [reflexivity|]. split; [vm_compute; reflexivity|].
  split; [vm_compute; reflexivity|]. split; [vm_compute; reflexivity|].
  unfold UnexpectedResponseShape. simpl. intros H.
  repeat (destruct H as [H|H]; [discriminate H|]). exact H.
Qed.

Lemma wrong_shape_rejected_witness :
  expectedShape (SignData "0xa11ce" []) = Some (fun p => isMethodPayload p "signDataResponse")
  /\ _portStream (this Wallet.started) = Some 0
  /\ nth_error (ports Wallet.started) 0 = Some Wallet.port0
  /\ connected Wallet.port0 = true
  /\ exists msg P,
       call (SignData "0xa11ce" []) Wallet.started
       = (sent 0 msg (setUuids (S (uuids Wallet.started)) Wallet.started),
          Ok (Awaitable P))
       /\ id msg = nextId Wallet.started
       /\ forall w' response rest,
            Port.inbox 0 (id msg) (List.length (received Wallet.port0)) w'
            = response :: rest ->
            isMethodPayload (payload response) "signDataResponse" = false ->
            exists e, P w' = Rejected e /\ UnexpectedResponseShape e.
Proof.
  split; [reflexivity|]. split; [vm_compute; reflexivity|].
  split; [vm_compute; reflexivity|]. split; [reflexivity|].
  apply (wrong_shape_rejected (SignData "0xa11ce" []) _ Wallet.started 0
           Wallet.port0); [reflexivity | vm_compute; reflexivity..].
Defined.

Lemma disconnected_send_fails_witness :
  portConnected (blank "visible" 0) = false
  /\ exists r,
       call (UnlockWallet "correct horse") (blank "visible" 0)
       = (setUuids (S (uuids (blank "visible" 0))) (blank "visible" 0), r)
       /\ failsWith r ChannelNotConnected.
Proof.
  split; [reflexivity|].
  apply (disconnected_send_fails (UnlockWallet "correct horse")
           (blank "visible" 0)). reflexivity.
Defined.

Lemma disconnect_reconnects_witness :
  nth_error (ports (run [Init 7] (blank "visible" 0))) 0 = Some Wallet.port0
  /\ connected Wallet.port0 = true
  /\ (let w := run [Init 7] (blank "visible" 0) in
      let w' := step (PortDisconnect 0) w in
      _portStream (this w) = Some 0
      /\ ports w' = (Port.adjust 0 Port.drop (ports w) ++ [subscribedPort])%list
      /\ _portStream (this w') = Some (List.length (ports w))
      /\ allPosted w' = allPosted w
      /\ uuids w' = uuids w
      /\ forall op wc P, snd (call op wc) = Ok (Awaitable P) -> P w' = P w).
Proof.
  split; [vm_compute; reflexivity|]. split; [reflexivity|].
  apply (disconnect_reconnects [Init 7] "visible" 0 0 Wallet.port0);
    vm_compute; reflexivity.
Defined.

Lemma first_response_settles_call_witness :
  _portStream (this Wallet.started) = Some 0
  /\ nth_error (ports Wallet.started) 0 = Some Wallet.port0
  /\ connected Wallet.port0 = true
  /\ awaitsResponse (UnlockWallet "correct horse") = true
  /\ exists msg P (settle : Message -> Settlement Value),
       call (UnlockWallet "correct horse") Wallet.started
       = (sent 0 msg (setUuids (S (uuids Wallet.started)) Wallet.started),
          Ok (Awaitable P))
       /\ id msg = nextId Wallet.started
       /\ (forall m, settle m <> Pending)
       /\ forall w',
            P w' = match Port.inbox 0 (id msg)
                           (List.length (received Wallet.port0)) w' with
                   | [] => Pending
                   | first :: _ => settle first
                   end.
Proof.
  split; [vm_compute; reflexivity|]. split; [vm_compute; reflexivity|].
  split; [reflexivity|]. split; [reflexivity|].
  apply (first_response_settles_call (UnlockWallet "correct horse")
           Wallet.started 0 Wallet.port0); vm_compute; reflexivity.
Defined.

Lemma verifyPassword_envelope_witness :
  _portStream (this Wallet.started) = Some 0
  /\ nth_error (ports Wallet.started) 0 = Some Wallet.port0
  /\ connected Wallet.port0 = true
  /\ exists P,
       verifyPassword "correct horse" (Some true) Wallet.started
       = (sent 0
            {| id := nextId Wallet.started;
               payload :=
                 [("type", VStr "keyring");
                  ("method", VStr "verifyPassword");
                  ("args", VObj [("password", VStr "correct horse")])] |}
            (setUuids (S (uuids Wallet.started)) Wallet.started),
          Ok P).
Proof.
  split; [vm_compute; reflexivity|]. split; [vm_compute; reflexivity|].
  split; [reflexivity|].
  apply (verifyPassword_envelope "correct horse" (Some true) Wallet.started 0
           Wallet.port0); vm_compute; reflexivity.
Defined.

Lemma getEntropy_settles_witness :
  _portStream (this Wallet.started) = Some 0
  /\ nth_error (ports Wallet.started) 0 = Some Wallet.port0
  /\ connected Wallet.port0 = true
  /\ exists msg P,
       getEntropy (Some "correct horse") Wallet.started
       = (sent 0 msg (setUuids (S (uuids Wallet.started)) Wallet.started), Ok P)
       /\ id msg = nextId Wallet.started
       /\ forall w',
            P w' = match Port.inbox 0 (id msg)
                           (List.length (received Wallet.port0)) w' with
                   | [] => Pending
                   | response :: _ =>
                       if isKeyringPayload (payload response) "getEntropy"
                       then match JS.lookup "return" (payload response) with
                            | VStr (String c rest) =>
                                Resolved (VStr (String c rest))
                            | VStr EmptyString => Rejected MnemonicNotFound
                            | VUndefined => Rejected MnemonicNotFound
                            | VNull => Rejected MnemonicNotFound
                            | VBool false => Rejected MnemonicNotFound
                            | VNum Z0 => Rejected MnemonicNotFound
                            | other => Resolved other
                            end
                       else Rejected MnemonicNotFound
                   end.
Proof.
  split; [vm_compute; reflexivity|]. split; [vm_compute; reflexivity|].
  split; [reflexivity|].
  apply (getEntropy_settles (Some "correct horse") Wallet.started 0
           Wallet.port0); vm_compute; reflexivity.
Defined.

Lemma unrecognized_broadcast_ignored_witness :
  recognized (payload Wallet.lockTimeoutTick) = false
  /\ (let w := run [Init 7] (blank "visible" 0) in
      let w' := step (PortMessage 0 Wallet.lockTimeoutTick) w in
      localState w' = localState w /\ uncaught w' = uncaught w
      /\ this w' = this w).
Proof.
  split; [reflexivity|].
  apply (unrecognized_broadcast_ignored [Init 7] "visible" 0 0
           Wallet.lockTimeoutTick). reflexivity.
Defined.

(** C9, as stated, fails: a message that arrives after [init] was called
    and before the promise [init] returned has resolved (here the answer to
    the first of its four requests) is handled like any other. There is no
    error, the permissions are dispatched, and the promise is still
    pending. *)
Lemma message_while_init_pending_is_processed :
  init 7 (blank "visible" 0) = (Wallet.started, Ok Wallet.initPromise)
  /\ Wallet.initPromise Wallet.started = Pending
  /\ Wallet.initPromise
       (step (PortMessage 0 Wallet.permissionRequests) Wallet.started)
     = Pending
  /\ uncaught (step (PortMessage 0 Wallet.permissionRequests) Wallet.started)
     = []
  /\ dispatched (step (PortMessage 0 Wallet.permissionRequests) Wallet.started)
     = [(7, setPermissions (VArr []))].
Proof.
  split; [vm_compute; reflexivity|]. split; [vm_compute; reflexivity|].
  split; [vm_compute; reflexivity|]. split; vm_compute; reflexivity.
Qed.

Lemma init_at_most_once_witness :
  _initialized (this Wallet.started) = true
  /\ init 8 Wallet.started
     = (Wallet.started, Throw (Error "[BackgroundClient] already initialized"))
  /\ (_initialized (this (blank "visible" 0)) = false
      \/ _dispatch (this (blank "visible" 0)) = None)
  /\ handleIncomingMessage Wallet.lockTimeoutTick (blank "visible" 0)
     = (blank "visible" 0,
        Throw (Error
                 "BackgroundClient is not initialized to handle incoming messages"))
  /\ nth_error (ports (run [Init 7] (blank "visible" 0))) 0 = Some Wallet.port0
  /\ connected Wallet.port0 = true
  /\ (let w := run [Init 7] (blank "visible" 0) in
      _initialized (this w) = true
      /\ (exists d, _dispatch (this w) = Some d)
      /\ step (PortMessage 0 Wallet.permissionRequests) w
         = reportUncaught (handleIncomingMessage Wallet.permissionRequests)
             (setPorts (Port.adjust 0 (Port.receive Wallet.permissionRequests)
                          (ports w)) w)
      /\ snd (handleIncomingMessage Wallet.permissionRequests
                (setPorts (Port.adjust 0 (Port.receive Wallet.permissionRequests)
                             (ports w)) w))
         <> Throw (Error
              "BackgroundClient is not initialized to handle incoming messages")).
Proof.
  split; [vm_compute; reflexivity|].
  split; [apply (proj1 init_at_most_once 8 Wallet.started);
          vm_compute; reflexivity|].
  split; [left; reflexivity|].
  split; [apply (proj1 (proj2 (proj2 init_at_most_once)) Wallet.lockTimeoutTick
                   (blank "visible" 0)); left; reflexivity|].
  split; [vm_compute; reflexivity|]. split; [reflexivity|].
  apply (proj2 (proj2 (proj2 init_at_most_once)) [Init 7] "visible" 0%Z 0
           Wallet.port0 Wallet.permissionRequests);
    [vm_compute; reflexivity | reflexivity].
Defined.

Lemma createAccounts_checked_witness :
  _portStream (this Wallet.started) = Some 0
  /\ nth_error (ports Wallet.started) 0 = Some Wallet.port0
  /\ connected Wallet.port0 = true
  /\ exists msg P,
       createAccounts {| accountsType := "mnemonic-derived";
                         accountsParams := [("sourceID", VStr "s1")] |}
         Wallet.started
       = (sent 0 msg (setUuids (S (uuids Wallet.started)) Wallet.started), Ok P)
       /\ id msg = nextId Wallet.started
       /\ forall w' response rest,
            Port.inbox 0 (id msg) (List.length (received Wallet.port0)) w'
            = response :: rest ->
            (forall accounts,
                isMethodPayload (payload response) "accountsCreatedResponse" = true ->
                JS.prop (JS.lookup "args" (payload response)) "accounts"
                = Ok (VArr accounts) ->
                match accounts with
                | [] => True
                | first :: _ => JS.optProp first "type" <> VStr "mnemonic-derived"
                end ->
                exists e, P w' = Rejected e)
            /\ (forall v,
                   P w' = Resolved v ->
                   JS.prop (JS.lookup "args" (payload response)) "accounts" = Ok v
                   /\ (exists first,
                          JS.first v = Ok first
                          /\ JS.optProp first "type" = VStr "mnemonic-derived")
                   /\ forall accounts,
                        v = VArr accounts ->
                        exists first others,
                          accounts = first :: others
                          /\ JS.optProp first "type" = VStr "mnemonic-derived").
Proof.
  split; [vm_compute; reflexivity|]. split; [vm_compute; reflexivity|].
  split; [reflexivity|].
  apply (createAccounts_checked
           {| accountsType := "mnemonic-derived";
              accountsParams := [("sourceID", VStr "s1")] |}
           Wallet.started 0 Wallet.port0); vm_compute; reflexivity.
Defined.

(* ================================================================== *)
(** * Runs on concrete inputs, continued *)
(* ================================================================== *)

Lemma disconnected_throws_or_rejects_witness :
  portConnected (blank "visible" 0) = false
  /\ call (DisconnectApp "https://dapp.example" None) (blank "visible" 0)
     = (setUuids (S (uuids (blank "visible" 0))) (blank "visible" 0),
        Ok (Awaitable (rejected ChannelNotConnected))).
Proof.
  split; [reflexivity|].
  apply (disconnected_throws_or_rejects
           (DisconnectApp "https://dapp.example" None) (blank "visible" 0)).
  reflexivity.
Defined.



Lemma right_shape_resolves_witness :
  projectedProperty (SignData "0xa11ce" []) = Some (Some "signature")
  /\ expectedShape (SignData "0xa11ce" [])
     = Some (fun p => isMethodPayload p "signDataResponse")
  /\ _portStream (this Wallet.started) = Some 0
  /\ nth_error (ports Wallet.started) 0 = Some Wallet.port0
  /\ connected Wallet.port0 = true
  /\ exists msg P,
       call (SignData "0xa11ce" []) Wallet.started
       = (sent 0 msg (setUuids (S (uuids Wallet.started)) Wallet.started),
          Ok (Awaitable P))
       /\ id msg = nextId Wallet.started
       /\ forall w' response rest,
            Port.inbox 0 (id msg) (List.length (received Wallet.port0)) w'
            = response :: rest ->
            isMethodPayload (payload response) "signDataResponse" = true ->
            P w' = match Some "signature", JS.lookup "args" (payload response) with
                   | None, args => Resolved args
                   | Some k, VObj args => Resolved (JS.lookup k args)
                   | Some k, VUndefined =>
                       Rejected (TypeError
                                   ("Cannot read properties of undefined (reading '"
                                      ++ k ++ "')"))
                   | Some k, VNull =>
                       Rejected (TypeError
                                   ("Cannot read properties of null (reading '"
                                      ++ k ++ "')"))
                   | Some k, _ => Resolved VUndefined
                   end.
Proof.
  split; [reflexivity|]. split; [reflexivity|].
  split; [vm_compute; reflexivity|]. split; [vm_compute; reflexivity|].
  split; [reflexivity|].
  apply (right_shape_resolves (SignData "0xa11ce" []) _ (Some "signature")
           Wallet.started 0 Wallet.port0);
    [reflexivity | reflexivity | vm_compute; reflexivity..].
Defined.

Lemma getStoredEntities_checked_witness :
  _portStream (this Wallet.started) = Some 0
  /\ nth_error (ports Wallet.started) 0 = Some Wallet.port0
  /\ connected Wallet.port0 = true
  /\ exists msg P,
       getStoredEntities Accounts Wallet.started
       = (sent 0 msg (setUuids (S (uuids Wallet.started)) Wallet.started), Ok P)
       /\ id msg = nextId Wallet.started
       /\ forall w' response rest args,
            Port.inbox 0 (id msg) (List.length (received Wallet.port0)) w'
            = response :: rest ->
            isMethodPayload (payload response) "storedEntitiesResponse" = true ->
            JS.lookup "args" (payload response) = VObj args ->
            P w' = if JS.strictEqStr (entityTypeName Accounts)
                        (JS.lookup "type" args)
                   then Resolved (JS.lookup "entities" args)
                   else Rejected (Error ("unexpected entity type response "
                                           ++ toString (JS.lookup "type" args))).
Proof.
  split; [vm_compute; reflexivity|]. split; [vm_compute; reflexivity|].
  split; [reflexivity|].
  apply (getStoredEntities_checked Accounts Wallet.started 0 Wallet.port0);
    vm_compute; reflexivity.
Defined.

Lemma createMnemonicAccountSource_checked_witness :
  _portStream (this Wallet.started) = Some 0
  /\ nth_error (ports Wallet.started) 0 = Some Wallet.port0
  /\ connected Wallet.port0 = true
  /\ exists msg P,
       createMnemonicAccountSource
         {| mnemonicPassword := "correct horse"; mnemonicEntropy := None |}
         Wallet.started
       = (sent 0 msg (setUuids (S (uuids Wallet.started)) Wallet.started), Ok P)
       /\ id msg = nextId Wallet.started
       /\ forall w' response rest args source,
            Port.inbox 0 (id msg) (List.length (received Wallet.port0)) w'
            = response :: rest ->
            isMethodPayload (payload response) "accountSourceCreationResponse"
            = true ->
            JS.lookup "args" (payload response) = VObj args ->
            JS.lookup "accountSource" args = VObj source ->
            P w' = if JS.strictEqStr "mnemonic" (JS.lookup "type" source)
                   then Resolved (VObj source)
                   else Rejected
                          (Error ("Unexpected account source type response "
                                    ++ toString (JS.lookup "type" source))).
Proof.
  split; [vm_compute; reflexivity|]. split; [vm_compute; reflexivity|].
  split; [reflexivity|].
  apply (createMnemonicAccountSource_checked
           {| mnemonicPassword := "correct horse"; mnemonicEntropy := None |}
           Wallet.started 0 Wallet.port0); vm_compute; reflexivity.
Defined.

Lemma deriveNextAccount_settles_witness :
  _portStream (this Wallet.started) = Some 0
  /\ nth_error (ports Wallet.started) 0 = Some Wallet.port0
  /\ connected Wallet.port0 = true
  /\ exists msg P,
       deriveNextAccount Wallet.started
       = (sent 0 msg (setUuids (S (uuids Wallet.started)) Wallet.started), Ok P)
       /\ id msg = nextId Wallet.started
       /\ forall w',
            P w' = match Port.inbox 0 (id msg)
                           (List.length (received Wallet.port0)) w' with
                   | [] => Pending
                   | response :: _ =>
                       if isKeyringPayload (payload response) "deriveNextAccount"
                          && JS.truthy (JS.lookup "return" (payload response))
                       then Resolved
                              (JS.optProp (JS.lookup "return" (payload response))
                                 "accountAddress")
                       else Rejected
                              (Error
                                 "Error unknown response for derive account message")
                   end.
Proof.
  split; [vm_compute; reflexivity|]. split; [vm_compute; reflexivity|].
  split; [reflexivity|].
  apply (deriveNextAccount_settles Wallet.started 0 Wallet.port0);
    vm_compute; reflexivity.
Defined.

Lemma exportAccount_settles_witness :
  _portStream (this Wallet.started) = Some 0
  /\ nth_error (ports Wallet.started) 0 = Some Wallet.port0
  /\ connected Wallet.port0 = true
  /\ exists msg P,
       exportAccount "correct horse" "0xa11ce" Wallet.started
       = (sent 0 msg (setUuids (S (uuids Wallet.started)) Wallet.started), Ok P)
       /\ id msg = nextId Wallet.started
       /\ JS.lookup "args" (payload msg)
          = VObj [("password", VStr "correct horse");
                  ("accountAddress", VStr "0xa11ce")]
       /\ forall w',
            P w' = match Port.inbox 0 (id msg)
                           (List.length (received Wallet.port0)) w' with
                   | [] => Pending
                   | response :: _ =>
                       if isKeyringPayload (payload response) "exportAccount"
                          && JS.truthy (JS.lookup "return" (payload response))
                       then Resolved
                              (JS.optProp (JS.lookup "return" (payload response))
                                 "keyPair")
                       else Rejected
                              (Error
                                 "Error unknown response for export account message")
                   end.
Proof.
  split; [vm_compute; reflexivity|]. split; [vm_compute; reflexivity|].
  split; [reflexivity|].
  apply (exportAccount_settles "correct horse" "0xa11ce" Wallet.started 0
           Wallet.port0); vm_compute; reflexivity.
Defined.

Lemma init_effects_witness :
  _initialized (this (blank "hidden" 5)) = false
  /\ exists P, init 7 (blank "hidden" 5)
     = ({| this := {| _portStream := Some (List.length (ports (blank "hidden" 5)));
                      _dispatch := Some 7; _initialized := true |};
           ports :=
             ports (blank "hidden" 5) ++
             [{| channelName := "sui_ui<->background"; connected := true;
                 posted :=
                   [appStatusUpdate (nextId (blank "hidden" 5))
                      (visible (blank "hidden" 5));
                    {| id := initRequestId (uuids (blank "hidden" 5)) 1;
                       payload := [("type", VStr "get-permission-requests")] |};
                    {| id := initRequestId (uuids (blank "hidden" 5)) 2;
                       payload := [("type", VStr "get-transaction-requests")] |};
                    {| id := initRequestId (uuids (blank "hidden" 5)) 3;
                       payload := [("type", VStr "get-features")] |};
                    {| id := initRequestId (uuids (blank "hidden" 5)) 4;
                       payload := [("type", VStr "get-network")] |}];
                 received := [];
                 onMessage := [CbHandleIncomingMessage];
                 onDisconnect := [CbCreatePortStream] |}];
           intervals :=
             intervals (blank "hidden" 5)
             ++ [statusInterval (now (blank "hidden" 5)
                                 + APP_STATUS_UPDATE_INTERVAL)];
           now := now (blank "hidden" 5);
           visibilityState := visibilityState (blank "hidden" 5);
           uuids := 5 + uuids (blank "hidden" 5);
           dispatched := dispatched (blank "hidden" 5);
           growthbookAttributes := growthbookAttributes (blank "hidden" 5);
           growthbookFeatures := growthbookFeatures (blank "hidden" 5);
           invalidatedQueries := invalidatedQueries (blank "hidden" 5);
           uncaught := uncaught (blank "hidden" 5) |}, Ok P).
Proof.
  split; [reflexivity|].
  apply (init_effects 7 (blank "hidden" 5)). reflexivity.
Defined.


Lemma entities_updated_invalidates_witness :
  _initialized (this Wallet.started) = true
  /\ _dispatch (this Wallet.started) = Some 7
  /\ isPermissionRequests (payload accountsUpdated) = false
  /\ isGetTransactionRequestsResponse (payload accountsUpdated) = false
  /\ isUpdateActiveOrigin (payload accountsUpdated) = false
  /\ isLoadedFeaturesPayload (payload accountsUpdated) = false
  /\ isSetNetworkPayload (payload accountsUpdated) = false
  /\ isMethodPayload (payload accountsUpdated) "entitiesUpdated" = true
  /\ JS.lookup "args" (payload accountsUpdated) = VObj [("type", VStr "accounts")]
  /\ JS.lookup "type" [("type", VStr "accounts")] = VStr "accounts"
  /\ handleIncomingMessage accountsUpdated Wallet.started
     = (setInvalidatedQueries
          (invalidatedQueries Wallet.started ++ [ByKey accountsQueryKey])
          Wallet.started,
        Ok tt).
Proof.
  split; [vm_compute; reflexivity|]. split; [vm_compute; reflexivity|].
  do 8 (split; [reflexivity|]).
  apply (entities_updated_invalidates accountsUpdated Wallet.started 7
           [("type", VStr "accounts")] "accounts");
    try reflexivity; vm_compute; reflexivity.
Defined.

Example init_promise_waits_for_all_four :
  match snd (init 7 (blank "visible" 0)) with
  | Ok P =>
      (P (run [PortMessage 0 {| id := "uuid-1"; payload := [] |};
               PortMessage 0 {| id := "uuid-3"; payload := [] |};
               PortMessage 0 {| id := "uuid-4"; payload := [] |}]
              Wallet.started),
       P (run [PortMessage 0 {| id := "uuid-4"; payload := [] |};
               PortMessage 0 {| id := "uuid-3"; payload := [] |};
               PortMessage 0 {| id := "uuid-2"; payload := [] |};
               PortMessage 0 {| id := "uuid-1"; payload := [] |}]
              Wallet.started))
  | Throw e => (Rejected e, Rejected e)
  end
  = (Pending, Resolved VUndefined).
Proof. vm_compute. reflexivity. Qed.

Example status_count_after_a_minute :
  statusCount (run (repeat Tick (Z.to_nat 60000)
                      ++ [PortDisconnect 0; Call LockWallet])
                   Wallet.started)
  = 4.
Proof. vm_compute. reflexivity. Qed.

Example entities_updated_inherited_property :
  invalidatedQueries
    (step (PortMessage 0
             {| id := "uuid-b3";
                payload := [("type", VStr "method-payload");
                            ("method", VStr "entitiesUpdated");
                            ("args", VObj [("type", VStr "constructor")])] |})
          Wallet.started)
  = [ByInherited "constructor"].
Proof. vm_compute. reflexivity. Qed.

Example signData_null_args :
  match snd (signData "0xa11ce" [] Wallet.started) with
  | Ok P =>
      P (step (PortMessage 0
                 {| id := "uuid-5";
                    payload := [("type", VStr "method-payload");
                                ("method", VStr "signDataResponse");
                                ("args", VNull)] |})
              (fst (signData "0xa11ce" [] Wallet.started)))
  | Throw e => Rejected e
  end
  = Rejected (TypeError "Cannot read properties of null (reading 'signature')").
Proof. vm_compute. reflexivity. Qed.

Example verifyPassword_default_is_not_legacy :
  List.map (fun flag =>
              JS.lookup "type"
                (payload (last (allPosted
                                  (fst (verifyPassword "correct horse" flag
                                          Wallet.started)))
                               Wallet.lockTimeoutTick)))
           [Some true; Some false; None]
  = [VStr "keyring"; VStr "method-payload"; VStr "method-payload"].
Proof. vm_compute. reflexivity. Qed.
